(** * cropaway: the mask RLE codec and the mask geometry utilities

    A shallow embedding of [Resources/python/mask_utils.py]
    ([mask_to_rle], [rle_to_mask], [mask_to_base64], [base64_to_mask],
    [get_bounding_box], [combine_masks]) and the properties of the
    specification stated over it.

    Modelling conventions.
    - A NumPy 2-D array is its shape together with its row-major buffer
      ([ndarray]); element values are integers.
    - Python exceptions are values of [exn]; a function that may raise
      returns a [result].  A [try ... except Exception: return None]
      block turns every [Raise] into [None].
    - [zlib] and [base64] are an interface ([Codec]) with their inverse
      laws; nothing else about them is used.
    - Python ints are unbounded ([Z]); [int.to_bytes] raises
      [OverflowError] outside the range of the field.
    - Floating-point quotients and weights are taken as exact rationals
      ([Q]). *)

From Stdlib Require Import ZArith List Lia Bool QArith.
From Stdlib Require Strings.String.
From Stdlib Require Import Strings.Byte.
Import ListNotations.
Open Scope Z_scope.

(** ** Exceptions and the error monad *)

Inductive exn : Type :=
| ZeroSizeReduction   (* ValueError: zero-size array to reduction operation *)
| OverflowError       (* int.to_bytes out of range; out-of-bound uint8 store *)
| ZlibError           (* zlib.error *)
| BinasciiError       (* binascii.Error or ValueError of base64.b64decode *)
| EmptyInput          (* ValueError("No masks to combine") *)
| BroadcastError.     (* ValueError: operands could not be broadcast together *)

Inductive result (A : Type) : Type :=
| Ok (a : A)
| Raise (e : exn).
Arguments Ok {A} a.
Arguments Raise {A} e.

Definition bind {A B} (r : result A) (k : A -> result B) : result B :=
  match r with
  | Ok a => k a
  | Raise e => Raise e
  end.

Notation "x <- r ;; k" := (bind r (fun x => k))
  (at level 61, r at next level, right associativity).

(** [try: body  except Exception: return None] *)
Definition try_except {A} (body : result (option A)) : option A :=
  match body with
  | Ok r => r
  | Raise _ => None
  end.

(** ** Bytes and little-endian integers *)

Definition Z_of_byte (b : byte) : Z := Z.of_N (Byte.to_N b).

Definition byte_of_Z (z : Z) : byte :=
  match Byte.of_N (Z.to_N z) with
  | Some b => b
  | None => x00
  end.

Fixpoint le_bytes (k : nat) (n : Z) : list byte :=
  match k with
  | O => []
  | S k' => byte_of_Z (n mod 256) :: le_bytes k' (n / 256)
  end.

(** [n.to_bytes(k, 'little')] *)
Definition to_bytes (k : nat) (n : Z) : result (list byte) :=
  if (n <? 0) || (256 ^ Z.of_nat k <=? n) then Raise OverflowError
  else Ok (le_bytes k n).

(** [int.from_bytes(bs, 'little')] *)
Definition from_bytes (bs : list byte) : Z :=
  fold_right (fun b acc => Z_of_byte b + 256 * acc) 0 bs.

(** ** Arrays *)

Record ndarray : Type := mk_ndarray {
  height : Z;
  width : Z;
  pixels : list Z   (* row-major buffer *)
}.

Definition len {A} (l : list A) : Z := Z.of_nat (length l).

(** A well-formed 2-D array: the buffer has [height * width] cells. *)
Definition well_shaped (m : ndarray) : Prop :=
  0 <= height m /\ 0 <= width m /\ len (pixels m) = height m * width m.

(** [a.max()] *)
Definition np_max (l : list Z) : result Z :=
  match l with
  | [] => Raise ZeroSizeReduction
  | x :: t => Ok (fold_left Z.max t x)
  end.

(** [np.where(padded[1:] != padded[:-1])[0]], scanning with the previous cell. *)
Fixpoint changes_from (i : Z) (prev : Z) (l : list Z) : list Z :=
  match l with
  | [] => []
  | x :: t =>
      if x =? prev then changes_from (i + 1) x t
      else i :: changes_from (i + 1) x t
  end.

Definition changes (padded : list Z) : list Z :=
  match padded with
  | [] => []
  | p0 :: rest => changes_from 0 p0 rest
  end.

(** [np.diff] *)
Fixpoint np_diff (l : list Z) : list Z :=
  match l with
  | a :: ((b :: _) as t) => (b - a) :: np_diff t
  | _ => []
  end.

(** ** The platform: zlib, base64 and NumPy's store rule *)

(** What NumPy does when a Python int outside [0, 255] is stored into a
    [uint8] array: NumPy 2 raises [OverflowError], older releases wrap. *)
Inductive store_policy : Type := StoreRaises | StoreWraps.

Class Platform : Type := {
  zlib_compress : list byte -> list byte;
  zlib_decompress : list byte -> result (list byte);
  b64encode : list byte -> String.string;
  b64decode : String.string -> result (list byte);
  uint8_store : store_policy;
  zlib_decompress_compress : forall d, zlib_decompress (zlib_compress d) = Ok d;
  b64decode_encode : forall d, b64decode (b64encode d) = Ok d
}.

(** ** Encoding: [mask_to_rle] *)

Module Encode.

(** Lines 22-25: binarisation. *)
Definition binarize (px : list Z) : result (list Z) :=
  mx <- np_max px ;;
  Ok (if mx >? 1 then map (fun p => if p >? 127 then 1 else 0) px
      else map (fun p => p mod 256) px).

(** Lines 55-61: one run, split while it exceeds 65535.  The fuel bounds the
    iterations of the [while]; [Z.to_nat rl] always suffices. *)
Fixpoint emit_run (fuel : nat) (rl : Z) : result (list byte) :=
  match fuel with
  | S f =>
      if rl >? 65535 then
        rest <- emit_run f (rl - 65535) ;;
        Ok (le_bytes 2 65535 ++ le_bytes 2 0 ++ rest)
      else to_bytes 2 rl
  | O => to_bytes 2 rl
  end.

Fixpoint emit_runs (run_lengths : list Z) : result (list byte) :=
  match run_lengths with
  | [] => Ok []
  | rl :: t =>
      b <- emit_run (Z.to_nat rl) rl ;;
      bs <- emit_runs t ;;
      Ok (b ++ bs)
  end.

Definition run_lengths_of (flat : list Z) : list Z :=
  np_diff (changes (0 :: flat ++ [0])).

(** The byte buffer handed to [zlib.compress] (lines 28-63). *)
Definition rle_payload (mask : ndarray) : result (list byte) :=
  flat <- binarize (pixels mask) ;;
  match flat with
  | [] => Ok []
  | start_value :: _ =>
      let run_lengths := run_lengths_of flat in
      h <- to_bytes 2 (height mask) ;;
      w <- to_bytes 2 (width mask) ;;
      n <- to_bytes 4 (len run_lengths) ;;
      runs_bytes <- emit_runs run_lengths ;;
      Ok ([byte_of_Z start_value] ++ h ++ w ++ n ++ runs_bytes)
  end.

End Encode.

(** ** Decoding: [rle_to_mask] *)

Module Decode.

(** Lines 89-96: at most [n] little-endian u16 entries, stopping when fewer
    than two bytes are left. *)
Fixpoint read_runs (n : nat) (rest : list byte) : list Z :=
  match n with
  | O => []
  | S n' =>
      match rest with
      | b0 :: b1 :: rest' => from_bytes [b0; b1] :: read_runs n' rest'
      | _ => []
      end
  end.

(** Storing the Python int [v] into a [uint8] array. *)
Definition store_value (pol : store_policy) (v : Z) : result Z :=
  if (0 <=? v) && (v <=? 255) then Ok v
  else match pol with
       | StoreRaises => Raise OverflowError
       | StoreWraps => Ok (v mod 256)
       end.

(** [flat[pos:pos+rl] = v] *)
Fixpoint fill (flat : list Z) (pos rl : nat) (v : Z) : list Z :=
  match flat with
  | [] => []
  | x :: t =>
      match pos with
      | S p => x :: fill t p rl v
      | O =>
          match rl with
          | S r => v :: fill t O r v
          | O => x :: t
          end
      end
  end.

(** Lines 103-109. *)
Fixpoint reconstruct (pol : store_policy) (run_lengths : list Z)
    (flat : list Z) (current_value pos : Z) : result (list Z) :=
  match run_lengths with
  | [] => Ok flat
  | rl0 :: t =>
      let rl := if pos + rl0 >? len flat then len flat - pos else rl0 in
      if rl >? 0 then
        v <- store_value pol (current_value * 255) ;;
        reconstruct pol t (fill flat (Z.to_nat pos) (Z.to_nat rl) v)
                    (1 - current_value) (pos + rl)
      else reconstruct pol t flat (1 - current_value) pos
  end.

(** Lines 79-111, on the decompressed buffer. *)
Definition decode_payload (pol : store_policy) (data : list byte)
  : result (option ndarray) :=
  match data with
  | s :: h0 :: h1 :: w0 :: w1 :: n0 :: n1 :: n2 :: n3 :: rest =>
      let start_value := Z_of_byte s in
      let height := from_bytes [h0; h1] in
      let width := from_bytes [w0; w1] in
      let num_runs := from_bytes [n0; n1; n2; n3] in
      let run_lengths := read_runs (Z.to_nat num_runs) rest in
      let zeros := repeat 0 (Z.to_nat (height * width)) in
      flat <- reconstruct pol run_lengths zeros start_value 0 ;;
      Ok (Some (mk_ndarray height width flat))
  | _ => Ok None   (* len(data) < 9 *)
  end.

End Decode.

Section WithPlatform.

Context {platform : Platform}.

Definition mask_to_rle (mask : ndarray) : result (list byte) :=
  data <- Encode.rle_payload mask ;;
  Ok (zlib_compress data).

Definition rle_to_mask (rle_bytes : list byte) : option ndarray :=
  try_except (
    data <- zlib_decompress rle_bytes ;;
    Decode.decode_payload uint8_store data).

Definition mask_to_base64 (mask : ndarray) : result String.string :=
  rle_bytes <- mask_to_rle mask ;;
  Ok (b64encode rle_bytes).

Definition base64_to_mask (b64_string : String.string) : option ndarray :=
  try_except (
    rle_bytes <- b64decode b64_string ;;
    Ok (rle_to_mask rle_bytes)).

End WithPlatform.

(** ** Mask geometry: [get_bounding_box] and [combine_masks] *)

Module Geometry.

(** The 2-D view of the buffer: [height] rows of [width] cells. *)
Fixpoint chunks (n w : nat) (l : list Z) : list (list Z) :=
  match n with
  | O => []
  | S n' => firstn w l :: chunks n' w (skipn w l)
  end.

Definition rows_of (m : ndarray) : list (list Z) :=
  chunks (Z.to_nat (height m)) (Z.to_nat (width m)) (pixels m).

(** [mask[r][c]] *)
Definition pixel_at (m : ndarray) (r c : nat) : Z :=
  nth c (nth r (rows_of m) []) 0.

(** [np.any(mask > 0, axis=1)] and [np.any(mask > 0, axis=0)] *)
Definition any_axis1 (m : ndarray) : list bool :=
  map (existsb (fun p => p >? 0)) (rows_of m).

Definition any_axis0 (m : ndarray) : list bool :=
  map (fun c => existsb (fun row => nth c row 0 >? 0) (rows_of m))
      (seq 0 (Z.to_nat (width m))).

(** [np.where(v)[0]] *)
Fixpoint where_from (i : nat) (v : list bool) : list nat :=
  match v with
  | [] => []
  | b :: t => if b then i :: where_from (S i) t else where_from (S i) t
  end.

Definition np_where (v : list bool) : list nat := where_from 0 v.

(** [np.any(v)] *)
Definition np_any (v : list bool) : bool := existsb (fun b => b) v.

Record box : Type := mk_box { box_x : Q; box_y : Q; box_w : Q; box_h : Q }.

Definition box_eq (a b : box) : Prop :=
  (box_x a == box_x b /\ box_y a == box_y b /\
   box_w a == box_w b /\ box_h a == box_h b)%Q.

Definition full_frame : box := mk_box 0 0 1 1.

Definition of_nat (n : nat) : Q := inject_Z (Z.of_nat n).

(** Lines 144-165. *)
Definition get_bounding_box (mask : ndarray) : result box :=
  mx <- np_max (pixels mask) ;;
  if mx =? 0 then Ok full_frame
  else
    let rows := any_axis1 mask in
    let cols := any_axis0 mask in
    if negb (np_any rows) || negb (np_any cols) then Ok full_frame
    else
      let ys := np_where rows in
      let xs := np_where cols in
      let y_min := hd O ys in
      let y_max := last ys O in
      let x_min := hd O xs in
      let x_max := last xs O in
      let h := inject_Z (height mask) in
      let w := inject_Z (width mask) in
      Ok (mk_box (of_nat x_min / w) (of_nat y_min / h)
                 (of_nat (x_max - x_min + 1) / w)
                 (of_nat (y_max - y_min + 1) / h))%Q.

(** [combined += mask.astype(np.float32) * weight], with NumPy's
    broadcasting of the right operand to the shape of [combined]. *)
Definition stretch {A} (n : nat) (actual : Z) (l : list A) : list A :=
  if actual =? Z.of_nat n then l
  else match l with
       | x :: _ => repeat x n
       | [] => []
       end.

Definition broadcast_to (h w : Z) (m : ndarray) : result (list Z) :=
  if ((height m =? h) || (height m =? 1)) && ((width m =? w) || (width m =? 1))
  then
    Ok (concat (stretch (Z.to_nat h) (height m)
                  (map (stretch (Z.to_nat w) (width m)) (rows_of m))))
  else Raise BroadcastError.

Definition add_weighted (h w : Z) (combined : list Q) (m : ndarray) (weight : Q)
  : result (list Q) :=
  px <- broadcast_to h w m ;;
  Ok (map (fun cp => (fst cp + inject_Z (snd cp) * weight)%Q)
          (List.combine combined px)).

Fixpoint accumulate (h w : Z) (combined : list Q)
    (pairs : list (ndarray * Q)) : result (list Q) :=
  match pairs with
  | [] => Ok combined
  | (m, weight) :: t =>
      c <- add_weighted h w combined m weight ;;
      accumulate h w c t
  end.

(** Python's [sum(weights)]. *)
Definition py_sum (ws : list Q) : Q := fold_left Qplus ws 0%Q.

Definition gt_bool (a b : Q) : bool := negb (Qle_bool a b).

(** Lines 201-213. *)
Definition combine_masks (masks : list ndarray) (weights : option (list Q))
  : result ndarray :=
  match masks with
  | [] => Raise EmptyInput
  | m0 :: _ =>
      let weights :=
        match weights with
        | None => repeat 1%Q (length masks)
        | Some ws => ws
        end in
      let zeros := map (fun _ => 0%Q) (pixels m0) in
      combined <- accumulate (height m0) (width m0) zeros
                             (List.combine masks weights) ;;
      let threshold := ((1 # 2) * py_sum weights)%Q in
      Ok (mk_ndarray (height m0) (width m0)
            (map (fun q => if gt_bool q threshold then 255 else 0) combined))
  end.

End Geometry.

(** * The prediction and server layer

    [sam3_inference.py] and [sam3_server.py]: the predictor object, the
    module-level predictor, and the request handlers.

    Modelling conventions.
    - Python values that come with a request (JSON data, model ids, prompts)
      are an opaque type with the operations the handlers apply to them
      ([Runtime]).
    - Predictor objects live in a heap; the two module-level variables hold
      references, so that both see a mutation.
    - What the libraries decide (the body of the request, the loading of the
      model, the decoding of the image, the model's output, the uuid, the
      clearing of the caches) is handed to each call as an [oracle].
    - A handler returns one of its [jsonify] replies; [reply] has one
      constructor for each. *)

Import String.StringSyntax.
Delimit Scope string_scope with string.

Class Runtime : Type := {
  pyobj : Type;                      (* a Python value *)
  image : Type;                      (* a PIL image *)
  handle : Type;                     (* a model or processor object *)
  truthy : pyobj -> bool;            (* bool(v) *)
  py_ne : pyobj -> pyobj -> bool;    (* a != b *)
  py_none : pyobj;
  py_str : String.string -> pyobj;
  py_empty_dict : pyobj;
  py_empty_list : pyobj;
  has_sam : bool;                    (* HAS_SAM *)
}.

Module Server.

Section WithRuntime.

Context {platform : Platform} {runtime : Runtime}.

Inductive py_exn : Type :=
| MaskError (e : exn)        (* raised inside mask_utils *)
| TransformersMissing        (* RuntimeError("transformers library not installed") *)
| ModelNotLoaded             (* RuntimeError("Model not loaded") *)
| NoImageSet                 (* RuntimeError("No image set") *)
| TextNotSupported           (* NotImplementedError *)
| External (not_implemented : bool) (tag : nat).
                             (* raised by a library call; the flag tells an
                                instance of NotImplementedError *)

(** [isinstance(e, NotImplementedError)] *)
Definition is_not_implemented (e : py_exn) : bool :=
  match e with
  | TextNotSupported => true
  | External flag _ => flag
  | _ => false
  end.

Inductive py_result (A : Type) : Type :=
| PyOk (a : A)
| PyRaise (e : py_exn).
Arguments PyOk {A} a.
Arguments PyRaise {A} e.

Definition of_result {A} (r : result A) : py_result A :=
  match r with
  | Ok a => PyOk a
  | Raise e => PyRaise (MaskError e)
  end.

Inductive device : Type := Mps | Cuda | Cpu.

(** The attributes of a [SAM3Predictor]. *)
Record predictor : Type := mk_predictor {
  p_device : device;
  p_model_id : pyobj;
  p_model : option handle;
  p_processor : option handle;
  p_current_image : option image;
  p_current_embedding : option handle;
  p_object_counter : Z
}.

(** The module-level variables of both files and the predictor objects. *)
Record world : Type := mk_world {
  heap : list predictor;
  inf_predictor : option nat;        (* sam3_inference._predictor *)
  srv_predictor : option nat;        (* sam3_server.predictor *)
  model_loaded : bool;
  current_model_id : pyobj
}.

(** How [load_model] ends: which statement raised, if any. *)
Inductive load_outcome : Type :=
| ProcessorFails                         (* line 65 raises *)
| ModelFails (proc : handle)             (* line 66 raises *)
| MoveFails (proc model : handle)        (* lines 69-77 raise *)
| Loads (proc model : handle).

(** A float array of two dimensions, as the model returns it. *)
Record float_mask : Type := mk_float_mask {
  fm_height : Z;
  fm_width : Z;
  fm_cells : list Q
}.

Record oracle : Type := mk_oracle {
  o_json : py_result pyobj;                    (* request.get_json() *)
  o_dict_get : pyobj -> String.string -> pyobj -> py_result pyobj;
                                               (* data.get(key, default) *)
  o_len : pyobj -> py_result Z;                (* len(v) *)
  o_tuples : pyobj -> py_result pyobj;         (* [tuple(p) for p in points] *)
  o_box : pyobj -> py_result pyobj;            (* the four box_data.get, lines 254-259 *)
  o_device : device;                           (* what torch reports in __init__ *)
  o_load : load_outcome;
  o_clear_caches : py_result unit;             (* lines 304-307 *)
  o_decode_image : pyobj -> py_result image;   (* b64decode and Image.open *)
  o_convert : image -> py_result image;        (* image.convert("RGB") *)
  o_run_model : image -> list pyobj -> py_result (float_mask * Q);
                                               (* lines 129-159 and 204-239 *)
  o_uuid : String.string                       (* uuid.uuid4().hex[:8] *)
}.

(** ** State and exceptions *)

Definition M (A : Type) : Type := world -> py_result A * world.

Definition ret {A} (a : A) : M A := fun w => (PyOk a, w).

Definition raise {A} (e : py_exn) : M A := fun w => (PyRaise e, w).

Definition bindM {A B} (c : M A) (k : A -> M B) : M B :=
  fun w =>
    match c w with
    | (PyOk a, w') => k a w'
    | (PyRaise e, w') => (PyRaise e, w')
    end.

Definition lift {A} (r : py_result A) : M A := fun w => (r, w).

Definition get_world : M world := fun w => (PyOk w, w).

Definition put_world (w' : world) : M unit := fun _ => (PyOk tt, w').

(** [try: body  except Exception as e: handler(e)] *)
Definition catch {A} (body : M A) (handler : py_exn -> M A) : M A :=
  fun w =>
    match body w with
    | (PyOk a, w') => (PyOk a, w')
    | (PyRaise e, w') => handler e w'
    end.

Notation "x <~ c ;; k" := (bindM c (fun x => k))
  (at level 61, c at next level, right associativity).
Notation "c ;;; k" := (bindM c (fun _ => k))
  (at level 61, right associativity).

(** ** The predictor object *)

Definition blank_predictor : predictor :=
  mk_predictor Cpu py_none None None None None 0.

Definition deref (r : nat) : M predictor :=
  fun w => (PyOk (nth r (heap w) blank_predictor), w).

Fixpoint update_at (r : nat) (f : predictor -> predictor) (h : list predictor)
  : list predictor :=
  match h, r with
  | [], _ => []
  | p :: t, O => f p :: t
  | p :: t, S r' => p :: update_at r' f t
  end.

Definition mutate (r : nat) (f : predictor -> predictor) : M unit :=
  fun w => (PyOk tt,
            mk_world (update_at r f (heap w)) (inf_predictor w) (srv_predictor w)
                     (model_loaded w) (current_model_id w)).

(** [SAM3Predictor(model_id=model_id)], lines 34-52. *)
Definition new_predictor (o : oracle) (model_id : pyobj) : M nat :=
  if has_sam then
    fun w =>
      (PyOk (length (heap w)),
       mk_world (heap w ++ [mk_predictor (o_device o) model_id None None None None 0])
                (inf_predictor w) (srv_predictor w)
                (model_loaded w) (current_model_id w))
  else raise TransformersMissing.

(** [load_model], lines 61-83. *)
Definition load_model (o : oracle) (r : nat) : M bool :=
  match o_load o with
  | ProcessorFails => ret false
  | ModelFails proc =>
      mutate r (fun p => mk_predictor (p_device p) (p_model_id p) (p_model p) (Some proc)
                           (p_current_image p) (p_current_embedding p) (p_object_counter p)) ;;;
      ret false
  | MoveFails proc model =>
      mutate r (fun p => mk_predictor (p_device p) (p_model_id p) (Some model) (Some proc)
                           (p_current_image p) (p_current_embedding p) (p_object_counter p)) ;;;
      ret false
  | Loads proc model =>
      mutate r (fun p => mk_predictor (p_device p) (p_model_id p) (Some model) (Some proc)
                           (p_current_image p) (p_current_embedding p) (p_object_counter p)) ;;;
      ret true
  end.

(** [set_image], lines 96-106. *)
Definition set_image (o : oracle) (r : nat) (img : image) : M bool :=
  p <~ deref r ;;
  match p_model p with
  | None => raise ModelNotLoaded
  | Some _ =>
      match o_convert o img with
      | PyOk rgb =>
          mutate r (fun p => mk_predictor (p_device p) (p_model_id p) (p_model p)
                               (p_processor p) (Some rgb) None (p_object_counter p)) ;;;
          ret true
      | PyRaise _ => ret false
      end
  end.

(** [(best_mask > 0.5).astype(np.uint8) * 255] *)
Definition binary_mask_of (fm : float_mask) : ndarray :=
  mk_ndarray (fm_height fm) (fm_width fm)
             (map (fun q => if Geometry.gt_bool q (1 # 2) then 255 else 0) (fm_cells fm)).

(** The dictionary that a prediction returns. *)
Record prediction : Type := mk_prediction {
  r_mask : ndarray;
  r_mask_base64 : String.string;
  r_bounding_box : Geometry.box;
  r_confidence : Q;
  r_object_id : Z * String.string     (* f"obj_{counter}_{uuid}" *)
}.

(** [predict_with_points] and [predict_with_box], lines 125-183 and 200-263:
    the two differ in how the prompt reaches the model only. *)
Definition predict (o : oracle) (r : nat) (prompt : list pyobj) : M prediction :=
  p <~ deref r ;;
  match p_current_image p with
  | None => raise NoImageSet
  | Some img =>
      out <~ lift (o_run_model o img prompt) ;;
      let binary_mask := binary_mask_of (fst out) in
      bbox <~ lift (of_result (Geometry.get_bounding_box binary_mask)) ;;
      mutate r (fun p => mk_predictor (p_device p) (p_model_id p) (p_model p)
                           (p_processor p) (p_current_image p) (p_current_embedding p)
                           (p_object_counter p + 1)) ;;;
      p' <~ deref r ;;
      b64 <~ lift (of_result (mask_to_base64 binary_mask)) ;;
      ret (mk_prediction binary_mask b64 bbox (snd out) (p_object_counter p', o_uuid o))
  end.

(** [predict_with_text], lines 285-288. *)
Definition predict_with_text (r : nat) (text_prompt : pyobj) : M prediction :=
  raise TextNotSupported.

(** [unload_model], lines 294-307. *)
Definition unload_model (o : oracle) (r : nat) : M unit :=
  mutate r (fun p => mk_predictor (p_device p) (p_model_id p) None None None None
                       (p_object_counter p)) ;;;
  lift (o_clear_caches o).

Definition set_inf_predictor (v : option nat) : M unit :=
  fun w => (PyOk tt, mk_world (heap w) v (srv_predictor w) (model_loaded w)
                              (current_model_id w)).

Definition set_srv_predictor (v : option nat) : M unit :=
  fun w => (PyOk tt, mk_world (heap w) (inf_predictor w) v (model_loaded w)
                              (current_model_id w)).

Definition set_model_loaded (b : bool) : M unit :=
  fun w => (PyOk tt, mk_world (heap w) (inf_predictor w) (srv_predictor w) b
                              (current_model_id w)).

Definition set_current_model_id (v : pyobj) : M unit :=
  fun w => (PyOk tt, mk_world (heap w) (inf_predictor w) (srv_predictor w)
                              (model_loaded w) v).

(** [get_predictor], lines 318-321. *)
Definition get_predictor (o : oracle) (model_id : pyobj) : M nat :=
  w <~ get_world ;;
  match inf_predictor w with
  | Some r =>
      p <~ deref r ;;
      if py_ne (p_model_id p) model_id then
        r' <~ new_predictor o model_id ;;
        set_inf_predictor (Some r') ;;;
        ret r'
      else ret r
  | None =>
      r' <~ new_predictor o model_id ;;
      set_inf_predictor (Some r') ;;;
      ret r'
  end.

(** [unload_predictor], lines 328-331. *)
Definition unload_predictor (o : oracle) : M unit :=
  w <~ get_world ;;
  match inf_predictor w with
  | Some r =>
      unload_model o r ;;;
      set_inf_predictor None
  | None => ret tt
  end.

(** ** The request handlers *)

Inductive reply : Type :=
| Health (loaded : bool) (model_id : option pyobj)
| ModelLoaded (model_id : pyobj)      (* "Model ... loaded successfully" *)
| LoadFailed                          (* "Failed to load model", 500 *)
| AlreadyLoaded                       (* "Model already loaded" *)
| Unloaded                            (* "Model unloaded" *)
| NotLoaded                           (* "Model not loaded. Call /initialize first.", 400 *)
| NoJson                              (* "No JSON data provided", 400 *)
| NoImage                             (* "No image provided", 400 *)
| NoPoints                            (* "No points provided", 400 *)
| LengthMismatch                      (* "Points and labels must have same length", 400 *)
| NoBox                               (* "No box provided", 400 *)
| NoPrompt                            (* "No text prompt provided", 400 *)
| Segmented (r : prediction)          (* status ok with the mask *)
| TextUnsupported                     (* the NotImplementedError reply, 501 *)
| ServerError (e : py_exn)            (* str(e), 500 *)
| Models (current : option pyobj).

Definition status_code (r : reply) : Z :=
  match r with
  | Health _ _ | ModelLoaded _ | AlreadyLoaded | Unloaded | Segmented _ | Models _ => 200
  | NotLoaded | NoJson | NoImage | NoPoints | LengthMismatch | NoBox | NoPrompt => 400
  | LoadFailed | ServerError _ => 500
  | TextUnsupported => 501
  end.

Definition default_model_id : pyobj := py_str "facebook/sam-vit-huge"%string.

(** [health], lines 38-42. *)
Definition health : M reply :=
  w <~ get_world ;;
  ret (Health (model_loaded w)
              (if model_loaded w then Some (current_model_id w) else None)).

(** [initialize], lines 57-94. *)
Definition initialize (o : oracle) : M reply :=
  catch
    (j <~ lift (o_json o) ;;
     let data := if truthy j then j else py_empty_dict in
     model_id <~ lift (o_dict_get o data "model_id"%string default_model_id) ;;
     w <~ get_world ;;
     (match srv_predictor w with
      | Some _ =>
          if py_ne (current_model_id w) model_id then
            unload_predictor o ;;;
            set_srv_predictor None ;;;
            set_model_loaded false
          else ret tt
      | None => ret tt
      end) ;;;
     w' <~ get_world ;;
     if negb (model_loaded w') then
       r <~ get_predictor o model_id ;;
       set_srv_predictor (Some r) ;;;
       success <~ load_model o r ;;
       if success then
         set_model_loaded true ;;;
         set_current_model_id model_id ;;;
         ret (ModelLoaded model_id)
       else ret LoadFailed
     else ret AlreadyLoaded)
    (fun e => ret (ServerError e)).

(** [unload], lines 102-115. *)
Definition unload (o : oracle) : M reply :=
  catch
    (unload_predictor o ;;;
     set_srv_predictor None ;;;
     set_model_loaded false ;;;
     ret Unloaded)
    (fun e => ret (ServerError e)).

(** The guard of the three segmentation handlers: the predictor to use, or
    none when the 400 reply is due. *)
Definition loaded_predictor (w : world) : option nat :=
  if negb (model_loaded w) then None else srv_predictor w.

(** [segment_with_points], lines 141-204. *)
Definition segment_with_points (o : oracle) : M reply :=
  w <~ get_world ;;
  match loaded_predictor w with
  | None => ret NotLoaded
  | Some r =>
      catch
        (data <~ lift (o_json o) ;;
         if negb (truthy data) then ret NoJson else
         image_b64 <~ lift (o_dict_get o data "image"%string py_none) ;;
         if negb (truthy image_b64) then ret NoImage else
         img <~ lift (o_decode_image o image_b64) ;;
         points <~ lift (o_dict_get o data "points"%string py_empty_list) ;;
         labels <~ lift (o_dict_get o data "labels"%string py_empty_list) ;;
         if negb (truthy points) then ret NoPoints else
         n_points <~ lift (o_len o points) ;;
         n_labels <~ lift (o_len o labels) ;;
         if negb (n_points =? n_labels) then ret LengthMismatch else
         set_image o r img ;;;
         prompt <~ lift (o_tuples o points) ;;
         result <~ predict o r [prompt; labels] ;;
         ret (Segmented result))
        (fun e => ret (ServerError e))
  end.

(** [segment_with_box], lines 220-279. *)
Definition segment_with_box (o : oracle) : M reply :=
  w <~ get_world ;;
  match loaded_predictor w with
  | None => ret NotLoaded
  | Some r =>
      catch
        (data <~ lift (o_json o) ;;
         if negb (truthy data) then ret NoJson else
         image_b64 <~ lift (o_dict_get o data "image"%string py_none) ;;
         if negb (truthy image_b64) then ret NoImage else
         img <~ lift (o_decode_image o image_b64) ;;
         box_data <~ lift (o_dict_get o data "box"%string py_none) ;;
         if negb (truthy box_data) then ret NoBox else
         box <~ lift (o_box o box_data) ;;
         set_image o r img ;;;
         result <~ predict o r [box] ;;
         ret (Segmented result))
        (fun e => ret (ServerError e))
  end.

(** [segment_with_text], lines 296-354. *)
Definition segment_with_text (o : oracle) : M reply :=
  w <~ get_world ;;
  match loaded_predictor w with
  | None => ret NotLoaded
  | Some r =>
      catch
        (data <~ lift (o_json o) ;;
         if negb (truthy data) then ret NoJson else
         image_b64 <~ lift (o_dict_get o data "image"%string py_none) ;;
         if negb (truthy image_b64) then ret NoImage else
         img <~ lift (o_decode_image o image_b64) ;;
         prompt <~ lift (o_dict_get o data "prompt"%string py_none) ;;
         if negb (truthy prompt) then ret NoPrompt else
         set_image o r img ;;;
         result <~ predict_with_text r prompt ;;
         ret (Segmented result))
        (fun e =>
           if is_not_implemented e then ret TextUnsupported
           else ret (ServerError e))
  end.

(** [list_models], lines 360-383. *)
Definition list_models : M reply :=
  w <~ get_world ;;
  ret (Models (if model_loaded w then Some (current_model_id w) else None)).

(** The part of [main] that preloads, lines 398-407. *)
Definition preload (o : oracle) (model : pyobj) : M unit :=
  r <~ get_predictor o model ;;
  set_srv_predictor (Some r) ;;;
  success <~ load_model o r ;;
  if success then
    set_model_loaded true ;;;
    set_current_model_id model
  else ret tt.

(** The module-level state when the server is imported. *)
Definition initial_world : world :=
  mk_world [] None None false default_model_id.

(** One request. *)
Inductive request : Type :=
| GetHealth
| PostInitialize
| PostUnload
| PostSegmentPoints
| PostSegmentBox
| PostSegmentText
| GetModels.

Definition handle_request (rq : request) (o : oracle) : M reply :=
  match rq with
  | GetHealth => health
  | PostInitialize => initialize o
  | PostUnload => unload o
  | PostSegmentPoints => segment_with_points o
  | PostSegmentBox => segment_with_box o
  | PostSegmentText => segment_with_text o
  | GetModels => list_models
  end.

(** The state after a sequence of requests. *)
Fixpoint serve (rqs : list (request * oracle)) (w : world) : world :=
  match rqs with
  | [] => w
  | (rq, o) :: t => serve t (snd (handle_request rq o w))
  end.

End WithRuntime.

Arguments PyOk {A} a.
Arguments PyRaise {A} e.

Notation "x <~ c ;; k" := (bindM c (fun x => k))
  (at level 61, c at next level, right associativity).
Notation "c ;;; k" := (bindM c (fun _ => k))
  (at level 61, right associativity).

End Server.

(** ** A concrete platform

    A store-only stand-in for zlib (one framing byte, no compression) and the
    Latin-1 reading of bytes as text for base64.  It shows that the laws of
    [Platform] can be met and serves the closed examples below. *)

Definition framed_compress (d : list byte) : list byte := x78 :: d.

Definition framed_decompress (b : list byte) : result (list byte) :=
  match b with
  | x78 :: d => Ok d
  | _ => Raise ZlibError
  end.

Definition latin1_decode (s : String.string) : result (list byte) :=
  Ok (String.list_byte_of_string s).

#[export] Program Instance framed_platform : Platform := {|
  zlib_compress := framed_compress;
  zlib_decompress := framed_decompress;
  b64encode := String.string_of_list_byte;
  b64decode := latin1_decode;
  uint8_store := StoreRaises
|}.
Next Obligation.
  unfold latin1_decode. now rewrite String.list_byte_of_string_of_list_byte.
Qed.

(** A small runtime for the closed examples: values are strings, the empty
    string standing for the falsy values. *)
#[export] Instance plain_runtime : Runtime := {|
  pyobj := String.string;
  image := nat;
  handle := nat;
  truthy := fun s => negb (String.eqb s ""%string);
  py_ne := fun a b => negb (String.eqb a b);
  py_none := ""%string;
  py_str := fun s => s;
  py_empty_dict := ""%string;
  py_empty_list := ""%string;
  has_sam := true
|}.

(** ** Inputs used by the examples *)

(** A byte string given by its values. *)
Definition bytes_of (l : list Z) : list byte := map byte_of_Z l.

Definition leading_background : ndarray := mk_ndarray 1 2 [0; 255].

Definition zero_pixel_mask : ndarray := mk_ndarray 0 0 [].

Definition all_foreground (h w : Z) : ndarray :=
  mk_ndarray h w (repeat 255 (Z.to_nat (h * w))).

Definition single_pixel_10x10 : ndarray :=
  mk_ndarray 10 10 (255 :: repeat 0 99).

(** Encode, then decode what was produced. *)
Definition roundtrip `{Platform} (m : ndarray) : result (option ndarray) :=
  s <- mask_to_base64 m ;;
  Ok (base64_to_mask s).

(** The header fields of a decompressed buffer. *)
Definition header_height (data : list byte) : Z := from_bytes (firstn 2 (skipn 1 data)).
Definition header_width (data : list byte) : Z := from_bytes (firstn 2 (skipn 3 data)).
Definition header_run_count (data : list byte) : Z := from_bytes (firstn 4 (skipn 5 data)).

(** The u16 entries after the header, all of them. *)
Fixpoint u16_entries (bs : list byte) : list Z :=
  match bs with
  | b0 :: b1 :: rest => from_bytes [b0; b1] :: u16_entries rest
  | _ => []
  end.

Definition run_entries (data : list byte) : list Z := u16_entries (skipn 9 data).

(** The total of a list of run lengths. *)
Definition sumZ (l : list Z) : Z := fold_right Z.add 0 l.

(** ** Vocabulary of the statements *)

(** The entries written for a run [r + 65535 * k], [0 < r <= 65535]. *)
Fixpoint split_entries (k : nat) (r : Z) : list Z :=
  match k with
  | O => [r]
  | S k' => 65535 :: 0 :: split_entries k' r
  end.

(** A run array as bytes. *)
Definition u16_bytes (entries : list Z) : list byte := flat_map (le_bytes 2) entries.

(** What decoding makes of the 4 x 50000 encoding: the header announces one
    run, so only the first entry is read. *)
Definition first_run_only : ndarray :=
  mk_ndarray 4 50000 (repeat 255 (Z.to_nat 65535) ++ repeat 0 (Z.to_nat 134465)).

(** Deciding [r = Ok (Some e)] by evaluation, for buffers too long to
    compare by unification. *)
Fixpoint Zlist_eqb (a b : list Z) : bool :=
  match a, b with
  | [], [] => true
  | x :: a', y :: b' => (x =? y) && Zlist_eqb a' b'
  | _, _ => false
  end.

Definition decodes_to (r : result (option ndarray)) (e : ndarray) : bool :=
  match r with
  | Ok (Some m) =>
      (height m =? height e) && (width m =? width e)
      && Zlist_eqb (pixels m) (pixels e)
  | _ => false
  end.

(** The 0/255 form of a 0/1 mask. *)
Definition scale255 (m : ndarray) : ndarray :=
  mk_ndarray (height m) (width m) (map (Z.mul 255) (pixels m)).

(** Cell values 0 and 1 only. *)
Definition logical (px : list Z) : Prop := Forall (fun p => p = 0 \/ p = 1) px.

(** [data[0]] *)
Definition header_start_value (data : list byte) : Z := Z_of_byte (hd x00 data).

(** A 1 x 1 mask. *)
Definition one_pixel (v : Z) : ndarray := mk_ndarray 1 1 [v].

(** The cell at row [r], column [c] lies in the mask and is positive. *)
Definition foreground (m : ndarray) (r c : nat) : Prop :=
  (r < Z.to_nat (height m))%nat /\ (c < Z.to_nat (width m))%nat /\
  0 < Geometry.pixel_at m r c.

Definition row_has_foreground (m : ndarray) (r : nat) : Prop :=
  exists c, foreground m r c.

Definition col_has_foreground (m : ndarray) (c : nat) : Prop :=
  exists r, foreground m r c.

Definition least (P : nat -> Prop) (n : nat) : Prop :=
  P n /\ forall k, P k -> (n <= k)%nat.

Definition greatest (P : nat -> Prop) (n : nat) : Prop :=
  P n /\ forall k, P k -> (k <= n)%nat.

(** [v[k]] is true. *)
Definition set_at (v : list bool) (k : nat) : Prop := nth k v false = true.

(** The gaps between changes, counted while scanning: [d] cells have been
    seen since the last change. *)
Fixpoint gaps (d : Z) (prev : Z) (l : list Z) : list Z :=
  match l with
  | [] => []
  | x :: t => if x =? prev then gaps (d + 1) x t else d :: gaps 1 x t
  end.

(** The cells that a list of runs stands for, starting with polarity [cv];
    [scale] is 1 for the encoder's logical values and 255 for the decoder's. *)
Fixpoint expand (scale : Z) (cv : Z) (runs : list Z) : list Z :=
  match runs with
  | [] => []
  | rl :: t => repeat (cv * scale) (Z.to_nat rl) ++ expand scale (1 - cv) t
  end.

Definition binary_cell (p : Z) : Prop := p = 0 \/ p = 255.


Definition broadcastable (h w : Z) (m : ndarray) : bool :=
  ((height m =? h) || (height m =? 1)) && ((width m =? w) || (width m =? 1)).

Definition weights_or_default (masks : list ndarray) (weights : option (list Q)) : list Q :=
  match weights with
  | None => repeat 1%Q (length masks)
  | Some ws => ws
  end.

(** * Properties *)

(** ** Encode followed by decode *)

Section CodecFacts.

Context `{Platform}.

Lemma mask_to_base64_payload (m : ndarray) (payload : list byte) :
  Encode.rle_payload m = Ok payload ->
  mask_to_base64 m = Ok (b64encode (zlib_compress payload)).
Proof.
  intros E. unfold mask_to_base64, mask_to_rle. now rewrite E.
Qed.

Lemma mask_to_base64_raises (m : ndarray) (e : exn) :
  Encode.rle_payload m = Raise e -> mask_to_base64 m = Raise e.
Proof.
  intros E. unfold mask_to_base64, mask_to_rle. now rewrite E.
Qed.

Lemma base64_to_mask_encoded (payload : list byte) :
  base64_to_mask (b64encode (zlib_compress payload))
  = try_except (Decode.decode_payload uint8_store payload).
Proof.
  unfold base64_to_mask. rewrite b64decode_encode. cbn.
  unfold rle_to_mask. now rewrite zlib_decompress_compress.
Qed.

Lemma roundtrip_payload (m : ndarray) (payload : list byte) :
  Encode.rle_payload m = Ok payload ->
  roundtrip m = Ok (try_except (Decode.decode_payload uint8_store payload)).
Proof.
  intros E. unfold roundtrip. rewrite (mask_to_base64_payload _ _ E). cbn.
  now rewrite base64_to_mask_encoded.
Qed.

End CodecFacts.

Lemma payload_leading_background :
  Encode.rle_payload leading_background
  = Ok (bytes_of [0; 1; 0; 2; 0; 1; 0; 0; 0; 1; 0]).
Proof. vm_compute. reflexivity. Qed.

(** C1: the round trip is not the identity.  The 1x2 mask [[0, 255]] is
    encoded with [start_value = 0] and the single run [1] (the leading
    background run is lost between the sentinel and the first foreground
    pixel), and decodes to the all-background mask [[0, 0]]. *)
Theorem roundtrip_drops_leading_background `{Platform} :
  roundtrip leading_background = Ok (Some (mk_ndarray 1 2 [0; 0])).
Proof.
  rewrite (roundtrip_payload _ _ payload_leading_background).
  destruct uint8_store; reflexivity.
Qed.

(** ** Splitting of long runs *)

Lemma to_bytes_u16 (r : Z) :
  0 <= r <= 65535 -> to_bytes 2 r = Ok (le_bytes 2 r).
Proof.
  intros Hr. unfold to_bytes.
  replace (r <? 0) with false by (symmetry; apply Z.ltb_ge; lia).
  replace (256 ^ Z.of_nat 2 <=? r) with false; [reflexivity|].
  symmetry. apply Z.leb_gt. change (256 ^ Z.of_nat 2) with 65536. lia.
Qed.

Lemma emit_run_entries (k : nat) :
  forall (fuel : nat) (r : Z),
    0 < r <= 65535 -> (k <= fuel)%nat ->
    Encode.emit_run fuel (r + 65535 * Z.of_nat k) = Ok (u16_bytes (split_entries k r)).
Proof.
  induction k as [|k IH]; intros fuel r Hr Hk.
  - replace (r + 65535 * Z.of_nat 0) with r by lia.
    assert (E : (r >? 65535) = false) by (rewrite Z.gtb_ltb; apply Z.ltb_ge; lia).
    destruct fuel; cbn [Encode.emit_run]; rewrite ?E;
      rewrite to_bytes_u16 by lia; unfold u16_bytes; cbn [split_entries flat_map];
      now rewrite app_nil_r.
  - destruct fuel as [|fuel]; [lia|].
    cbn [Encode.emit_run].
    assert (E : (r + 65535 * Z.of_nat (S k) >? 65535) = true).
    { rewrite Z.gtb_ltb. apply Z.ltb_lt. lia. }
    rewrite E.
    replace (r + 65535 * Z.of_nat (S k) - 65535) with (r + 65535 * Z.of_nat k) by lia.
    rewrite IH by lia. reflexivity.
Qed.

(** Every positive run length is [r + 65535 * k] for such [r] and [k]. *)
Lemma run_decomposition (rl : Z) :
  0 < rl ->
  exists (k : nat) (r : Z),
    0 < r <= 65535 /\ rl = r + 65535 * Z.of_nat k /\ (k <= Z.to_nat rl)%nat.
Proof.
  intros Hrl.
  exists (Z.to_nat ((rl - 1) / 65535)), ((rl - 1) mod 65535 + 1).
  pose proof (Z.mod_pos_bound (rl - 1) 65535 ltac:(lia)) as Hm.
  pose proof (Z.div_mod (rl - 1) 65535 ltac:(lia)) as Hd.
  assert (0 <= (rl - 1) / 65535) by (apply Z.div_pos; lia).
  assert ((rl - 1) / 65535 <= rl) by (apply Z.div_le_upper_bound; lia).
  repeat split; try lia.
Qed.

Lemma emit_run_split (rl : Z) :
  65535 < rl ->
  exists rest,
    Encode.emit_run (Z.to_nat (rl - 65535)) (rl - 65535) = Ok rest /\
    Encode.emit_run (Z.to_nat rl) rl = Ok (le_bytes 2 65535 ++ le_bytes 2 0 ++ rest).
Proof.
  intros Hrl.
  destruct (run_decomposition (rl - 65535) ltac:(lia)) as (k & r & Hr & Hk & Hf).
  exists (u16_bytes (split_entries k r)). split.
  - rewrite Hk at 2. now apply emit_run_entries.
  - replace rl with (r + 65535 * Z.of_nat (S k)) at 2 by lia.
    rewrite emit_run_entries by lia. reflexivity.
Qed.

Lemma payload_4x50000 :
  Encode.rle_payload (all_foreground 4 50000)
  = Ok (bytes_of [1; 4; 0; 80; 195; 1; 0; 0; 0;
                  255; 255; 0; 0; 255; 255; 0; 0; 255; 255; 0; 0; 67; 13]).
Proof. vm_compute. reflexivity. Qed.

(** C3, as stated, fails: a single row of 200000 pixels has width 200000,
    which [width.to_bytes(2, 'little')] rejects, so nothing is encoded. *)
Lemma single_row_200000_is_rejected :
  Encode.rle_payload (all_foreground 1 200000) = Raise OverflowError /\
  mask_to_base64 (all_foreground 1 200000) = Raise OverflowError.
Proof.
  assert (E : Encode.rle_payload (all_foreground 1 200000) = Raise OverflowError)
    by (vm_compute; reflexivity).
  split; [exact E | now apply mask_to_base64_raises].
Qed.

(** C3 (amended): a run longer than 65535 is written as 65535, a zero-length
    run, and the entries of the remainder; the 200000-pixel all-foreground
    mask of shape 4 x 50000 is encoded, its run array being
    65535, 0, 65535, 0, 65535, 0, 3395, every entry within 16 bits. *)
Theorem long_run_is_split :
  (forall rl, 65535 < rl ->
     exists rest,
       Encode.emit_run (Z.to_nat (rl - 65535)) (rl - 65535) = Ok rest /\
       Encode.emit_run (Z.to_nat rl) rl
       = Ok (le_bytes 2 65535 ++ le_bytes 2 0 ++ rest)) /\
  (exists payload,
     Encode.rle_payload (all_foreground 4 50000) = Ok payload /\
     run_entries payload = [65535; 0; 65535; 0; 65535; 0; 3395] /\
     Forall (fun e => 0 <= e <= 65535) (run_entries payload) /\
     sumZ (run_entries payload) = 200000).
Proof.
  split; [exact emit_run_split|].
  eexists. split; [exact payload_4x50000|].
  assert (E : run_entries
                (bytes_of [1; 4; 0; 80; 195; 1; 0; 0; 0;
                           255; 255; 0; 0; 255; 255; 0; 0; 255; 255; 0; 0; 67; 13])
              = [65535; 0; 65535; 0; 65535; 0; 3395]) by (vm_compute; reflexivity).
  rewrite E. repeat split.
  repeat constructor; lia.
Qed.

Lemma long_run_is_split_witness :
  65535 < 200000 /\
  exists rest,
    Encode.emit_run (Z.to_nat (200000 - 65535)) (200000 - 65535) = Ok rest /\
    Encode.emit_run (Z.to_nat 200000) 200000
    = Ok (le_bytes 2 65535 ++ le_bytes 2 0 ++ rest).
Proof.
  split; [lia | apply (proj1 long_run_is_split 200000); lia].
Defined.

Lemma Zlist_eqb_eq (a : list Z) : forall b, Zlist_eqb a b = true -> a = b.
Proof.
  induction a as [|x a IH]; intros [|y b] E; cbn in E; try discriminate; auto.
  apply andb_prop in E. destruct E as [E1 E2].
  apply Z.eqb_eq in E1. f_equal; auto.
Qed.

Lemma decodes_to_sound (r : result (option ndarray)) (e : ndarray) :
  decodes_to r e = true -> r = Ok (Some e).
Proof.
  destruct r as [[m|]|]; cbn; try discriminate.
  intros E. apply andb_prop in E. destruct E as [E E3].
  apply andb_prop in E. destruct E as [E1 E2].
  apply Z.eqb_eq in E1, E2. apply Zlist_eqb_eq in E3.
  destruct m, e; cbn in *; subst; reflexivity.
Qed.

Lemma decode_payload_4x50000 (pol : store_policy) :
  Decode.decode_payload pol
    (bytes_of [1; 4; 0; 80; 195; 1; 0; 0; 0;
               255; 255; 0; 0; 255; 255; 0; 0; 255; 255; 0; 0; 67; 13])
  = Ok (Some first_run_only).
Proof. apply decodes_to_sound. destruct pol; vm_compute; reflexivity. Qed.

Lemma decode_4x50000 `{Platform} :
  roundtrip (all_foreground 4 50000) = Ok (Some first_run_only).
Proof.
  rewrite (roundtrip_payload _ _ payload_4x50000).
  now rewrite decode_payload_4x50000.
Qed.

(** C4: the run array breaks both invariants.  For the 1x2 mask [[0, 255]]
    the only entry is 1 while the mask has 2 pixels; for the 4 x 50000
    all-foreground mask the header announces 1 run and 7 entries follow. *)
Theorem run_array_breaks_invariants :
  (exists payload,
     Encode.rle_payload leading_background = Ok payload /\
     run_entries payload = [1] /\
     sumZ (run_entries payload) = 1 /\
     height leading_background * width leading_background = 2) /\
  (exists payload,
     Encode.rle_payload (all_foreground 4 50000) = Ok payload /\
     header_run_count payload = 1 /\
     len (run_entries payload) = 7).
Proof.
  split.
  - eexists. split; [exact payload_leading_background|].
    repeat split.
  - eexists. split; [exact payload_4x50000|].
    split; vm_compute; reflexivity.
Qed.

(** ** Zero-pixel masks and the failures of decode *)

Lemma binarize_zero_size : Encode.binarize [] = Raise ZeroSizeReduction.
Proof. reflexivity. Qed.

Lemma rle_payload_zero_size (m : ndarray) :
  pixels m = [] -> Encode.rle_payload m = Raise ZeroSizeReduction.
Proof. intros E. unfold Encode.rle_payload. now rewrite E. Qed.

Section DecodeFailures.

Context `{Platform}.

Lemma decode_payload_short (pol : store_policy) (data : list byte) :
  len data < 9 -> Decode.decode_payload pol data = Ok None.
Proof.
  unfold len. intros Hlen.
  do 9 (destruct data as [|? data]; [reflexivity|]).
  cbn [length] in Hlen. lia.
Qed.

Lemma base64_to_mask_invalid_base64 (s : String.string) (e : exn) :
  b64decode s = Raise e -> base64_to_mask s = None.
Proof. intros E. unfold base64_to_mask. now rewrite E. Qed.

Lemma rle_to_mask_corrupt_stream (rle_bytes : list byte) (e : exn) :
  zlib_decompress rle_bytes = Raise e -> rle_to_mask rle_bytes = None.
Proof. intros E. unfold rle_to_mask. now rewrite E. Qed.

Lemma rle_to_mask_short_payload (rle_bytes data : list byte) :
  zlib_decompress rle_bytes = Ok data -> len data < 9 ->
  rle_to_mask rle_bytes = None.
Proof.
  intros E Hlen. unfold rle_to_mask. rewrite E. cbn.
  now rewrite decode_payload_short.
Qed.

Lemma base64_to_mask_of_bytes (s : String.string) (rle_bytes : list byte) :
  b64decode s = Ok rle_bytes -> base64_to_mask s = rle_to_mask rle_bytes.
Proof. intros E. unfold base64_to_mask. now rewrite E. Qed.

(** The compression of the empty payload does not decode. *)
Lemma empty_payload_fails_decode :
  base64_to_mask (b64encode (zlib_compress [])) = None.
Proof. now rewrite base64_to_mask_encoded. Qed.

End DecodeFailures.

(** C6: encoding a zero-pixel mask yields no transport string at all.
    [mask.max()] is evaluated first and raises on a zero-size array, so the
    branch returning the compressed empty payload is never reached.  The
    string that branch would have returned does fail decode. *)
Theorem encode_zero_pixel_mask_raises `{Platform} :
  mask_to_base64 zero_pixel_mask = Raise ZeroSizeReduction /\
  base64_to_mask (b64encode (zlib_compress [])) = None.
Proof.
  split.
  - apply mask_to_base64_raises. reflexivity.
  - apply empty_payload_fails_decode.
Qed.

(** ** Binarisation is blind to the input convention *)

Lemma fold_max_ge_init (l : list Z) : forall x, x <= fold_left Z.max l x.
Proof.
  induction l as [|y l IH]; intros x; cbn; [lia|].
  specialize (IH (Z.max x y)). lia.
Qed.

Lemma fold_max_ge_In (l : list Z) :
  forall x y, In y l -> y <= fold_left Z.max l x.
Proof.
  induction l as [|z l IH]; intros x y Hin; [contradiction|].
  destruct Hin as [E|Hin]; cbn.
  - subst. pose proof (fold_max_ge_init l (Z.max x y)). lia.
  - now apply IH.
Qed.

Lemma fold_max_le_bound (b : Z) (l : list Z) :
  forall x, x <= b -> Forall (fun p => p <= b) l -> fold_left Z.max l x <= b.
Proof.
  induction l as [|y l IH]; intros x Hx Hl; cbn; [lia|].
  inversion Hl; subst. apply IH; [lia|assumption].
Qed.

Lemma np_max_nonempty (l : list Z) :
  l <> [] ->
  exists mx, np_max l = Ok mx /\
             (forall y, In y l -> y <= mx) /\
             (forall b, Forall (fun p => p <= b) l -> mx <= b).
Proof.
  destruct l as [|x t]; [congruence|]. intros _.
  eexists. split; [reflexivity|]. split.
  - intros y [E|Hin].
    + subst. apply fold_max_ge_init.
    + now apply fold_max_ge_In.
  - intros b Hb. inversion Hb; subst. now apply fold_max_le_bound.
Qed.

Lemma map_id_on {A} (f : A -> A) (l : list A) :
  Forall (fun a => f a = a) l -> map f l = l.
Proof. induction 1; cbn; congruence. Qed.

Lemma binarize_logical (px : list Z) :
  logical px -> px <> [] -> Encode.binarize px = Ok px.
Proof.
  intros Hlog Hne.
  destruct (np_max_nonempty px Hne) as (mx & Emx & _ & Hub).
  unfold Encode.binarize. rewrite Emx. cbn [bind].
  assert (Hle : mx <= 1).
  { apply Hub. eapply Forall_impl; [|exact Hlog]. cbn. lia. }
  replace (mx >? 1) with false by (symmetry; rewrite Z.gtb_ltb; apply Z.ltb_ge; lia).
  f_equal. apply map_id_on.
  eapply Forall_impl; [|exact Hlog]. cbn. intros a [->| ->]; reflexivity.
Qed.

Lemma binarize_scaled (px : list Z) :
  logical px -> px <> [] -> Encode.binarize (map (Z.mul 255) px) = Ok px.
Proof.
  intros Hlog Hne.
  destruct (in_dec Z.eq_dec 1 px) as [Hone|Hnone].
  - assert (Hne' : map (Z.mul 255) px <> []).
    { destruct px; [congruence|discriminate]. }
    destruct (np_max_nonempty _ Hne') as (mx & Emx & Hlb & _).
    unfold Encode.binarize. rewrite Emx. cbn [bind].
    assert (Hge : 255 <= mx).
    { apply Hlb. change 255 with (255 * 1) at 1. now apply in_map. }
    replace (mx >? 1) with true by (symmetry; rewrite Z.gtb_ltb; apply Z.ltb_lt; lia).
    f_equal. rewrite map_map. apply map_id_on.
    eapply Forall_impl; [|exact Hlog]. cbn. intros a [->| ->]; reflexivity.
  - assert (Hzero : Forall (fun p => 255 * p = p) px).
    { unfold logical in Hlog. rewrite Forall_forall in *. intros p Hp.
      destruct (Hlog p Hp) as [->| ->]; [reflexivity|contradiction]. }
    rewrite (map_id_on _ _ Hzero). now apply binarize_logical.
Qed.

(** C9: a logical mask given with values 0/1 and the same mask given with
    values 0/255 are encoded to the same transport string. *)
Theorem encode_blind_to_convention `{Platform} (m : ndarray) :
  logical (pixels m) ->
  mask_to_base64 (scale255 m) = mask_to_base64 m.
Proof.
  intros Hlog.
  assert (E : Encode.rle_payload (scale255 m) = Encode.rle_payload m).
  { unfold Encode.rle_payload, scale255. cbn [pixels height width].
    revert Hlog. destruct (pixels m) as [|x t]; [reflexivity|]. intros Hlog.
    rewrite (binarize_scaled (x :: t) Hlog), (binarize_logical (x :: t) Hlog);
      [reflexivity | discriminate | discriminate]. }
  unfold mask_to_base64, mask_to_rle. now rewrite E.
Qed.

Lemma encode_blind_to_convention_witness :
  logical (pixels (mk_ndarray 2 2 [0; 1; 1; 0])) /\
  mask_to_base64 (scale255 (mk_ndarray 2 2 [0; 1; 1; 0]))
  = mask_to_base64 (mk_ndarray 2 2 [0; 1; 1; 0]).
Proof.
  assert (Hlog : logical (pixels (mk_ndarray 2 2 [0; 1; 1; 0]))).
  { unfold logical. cbn. repeat (apply Forall_cons; [lia|]). apply Forall_nil. }
  split; [exact Hlog | exact (encode_blind_to_convention _ Hlog)].
Defined.

(** ** The shape of a decoded mask *)

Lemma Z_of_byte_nonneg (b : byte) : 0 <= Z_of_byte b.
Proof. unfold Z_of_byte. lia. Qed.

Lemma from_bytes_nonneg (bs : list byte) : 0 <= from_bytes bs.
Proof.
  induction bs as [|b bs IH]; [cbn; lia|].
  change (from_bytes (b :: bs)) with (Z_of_byte b + 256 * from_bytes bs).
  pose proof (Z_of_byte_nonneg b). lia.
Qed.

Lemma fill_length (flat : list Z) :
  forall pos rl v, length (Decode.fill flat pos rl v) = length flat.
Proof.
  induction flat as [|x t IH]; intros pos rl v; [reflexivity|].
  destruct pos as [|p]; [destruct rl as [|r]|]; cbn; auto.
Qed.

(** Cells at or beyond the end of the slice keep their value. *)
Lemma fill_beyond (flat : list Z) :
  forall pos rl v i,
    (pos + rl <= i)%nat ->
    nth_error (Decode.fill flat pos rl v) i = nth_error flat i.
Proof.
  induction flat as [|x t IH]; intros pos rl v i Hi; [reflexivity|].
  destruct pos as [|p]; [destruct rl as [|r]|]; cbn; auto.
  - destruct i as [|i]; [lia|]. cbn. apply IH. lia.
  - destruct i as [|i]; [reflexivity|]. cbn. apply IH. lia.
Qed.

Lemma reconstruct_length (pol : store_policy) (runs : list Z) :
  forall flat cv pos flat',
    Decode.reconstruct pol runs flat cv pos = Ok flat' ->
    length flat' = length flat.
Proof.
  induction runs as [|rl0 t IH]; intros flat cv pos flat' E; cbn in E.
  - now inversion E.
  - destruct ((if pos + rl0 >? len flat then len flat - pos else rl0) >? 0).
    + destruct (Decode.store_value pol (cv * 255)) as [v|e]; cbn in E; [|discriminate].
      apply IH in E. now rewrite fill_length in E.
    + now apply IH in E.
Qed.

Lemma decode_payload_shape (pol : store_policy) (data : list byte) (m : ndarray) :
  Decode.decode_payload pol data = Ok (Some m) ->
  9 <= len data /\
  height m = header_height data /\
  width m = header_width data /\
  len (pixels m) = header_height data * header_width data.
Proof.
  intros E.
  assert (Hlen : 9 <= len data).
  { destruct (Z_lt_le_dec (len data) 9) as [Hlt|]; [|assumption].
    rewrite decode_payload_short in E by assumption. discriminate. }
  split; [assumption|].
  do 9 (destruct data as [|? data]; [cbn in Hlen; lia|]).
  cbn [Decode.decode_payload] in E.
  match type of E with
  | bind ?r _ = _ => destruct r as [flat|e] eqn:Er; cbn in E; [|discriminate]
  end.
  inversion E; subst m; clear E. cbn [height width pixels].
  apply reconstruct_length in Er. rewrite repeat_length in Er.
  unfold header_height, header_width. cbn [skipn firstn].
  repeat split. unfold len. rewrite Er.
  pose proof (from_bytes_nonneg [b0; b1]). pose proof (from_bytes_nonneg [b2; b3]).
  rewrite Z2Nat.id; [reflexivity|]. apply Z.mul_nonneg_nonneg; assumption.
Qed.

(** C10: whenever decode returns a mask, the mask has the height and the
    width announced in the header of the decompressed stream, and exactly
    [height * width] pixels. *)
Theorem decoded_shape_is_declared `{Platform} (s : String.string) (m : ndarray) :
  base64_to_mask s = Some m ->
  exists rle_bytes data,
    b64decode s = Ok rle_bytes /\
    zlib_decompress rle_bytes = Ok data /\
    9 <= len data /\
    height m = header_height data /\
    width m = header_width data /\
    len (pixels m) = header_height data * header_width data.
Proof.
  unfold base64_to_mask, rle_to_mask. intros E.
  destruct (b64decode s) as [rle_bytes|e] eqn:Eb; cbn in E; [|discriminate].
  destruct (zlib_decompress rle_bytes) as [data|e] eqn:Ez; cbn in E; [|discriminate].
  exists rle_bytes, data. split; [reflexivity|]. split; [assumption|].
  apply (decode_payload_shape uint8_store).
  destruct (Decode.decode_payload uint8_store data) as [[m'|]|e];
    cbn in E; congruence.
Qed.

Lemma decoded_shape_is_declared_witness :
  exists rle_bytes data,
    b64decode (b64encode (zlib_compress (bytes_of [1; 1; 0; 2; 0; 1; 0; 0; 0; 1; 0])))
    = Ok rle_bytes /\
    zlib_decompress rle_bytes = Ok data /\
    9 <= len data /\
    height (mk_ndarray 1 2 [255; 0]) = header_height data /\
    width (mk_ndarray 1 2 [255; 0]) = header_width data /\
    len (pixels (mk_ndarray 1 2 [255; 0])) = header_height data * header_width data.
Proof.
  apply (decoded_shape_is_declared
           (b64encode (zlib_compress (bytes_of [1; 1; 0; 2; 0; 1; 0; 0; 0; 1; 0])))
           (mk_ndarray 1 2 [255; 0])).
  vm_compute. reflexivity.
Defined.

(** ** Truncated run arrays *)

Lemma u16_entries_nonneg (bs : list byte) : Forall (fun e => 0 <= e) (u16_entries bs).
Proof.
  assert (G : forall n bs, (length bs <= n)%nat -> Forall (fun e => 0 <= e) (u16_entries bs)).
  { clear bs. induction n as [|n IH]; intros bs Hn.
    - destruct bs; [constructor|cbn in Hn; lia].
    - destruct bs as [|b0 [|b1 rest]]; try constructor.
      + apply from_bytes_nonneg.
      + apply IH. cbn in Hn. lia. }
  now apply (G (length bs)).
Qed.

(** When fewer entries are present than announced, the loop reads all the
    complete entries and stops. *)
Lemma read_runs_exhausted (n : nat) :
  forall rest, (length (u16_entries rest) <= n)%nat ->
               Decode.read_runs n rest = u16_entries rest.
Proof.
  induction n as [|n IH]; intros rest Hn.
  - destruct rest as [|b0 [|b1 rest]]; cbn in *; try reflexivity. lia.
  - destruct rest as [|b0 [|b1 rest]]; try reflexivity.
    cbn [Decode.read_runs u16_entries]. f_equal. apply IH.
    cbn [u16_entries length] in Hn. lia.
Qed.

Lemma store_value_polarity (pol : store_policy) (cv : Z) :
  cv = 0 \/ cv = 1 -> Decode.store_value pol (cv * 255) = Ok (cv * 255).
Proof. intros [->| ->]; reflexivity. Qed.

Lemma sumZ_cons (x : Z) (l : list Z) : sumZ (x :: l) = x + sumZ l.
Proof. reflexivity. Qed.

Lemma sumZ_nonneg (l : list Z) : Forall (fun e => 0 <= e) l -> 0 <= sumZ l.
Proof. induction 1; rewrite ?sumZ_cons; [cbn|]; lia. Qed.

(** With a 0/1 start value the loop never fails, and the cells from the
    total of the run lengths onwards are left as they were. *)
Lemma reconstruct_tail (pol : store_policy) (runs : list Z) :
  forall flat cv pos,
    cv = 0 \/ cv = 1 -> 0 <= pos -> Forall (fun e => 0 <= e) runs ->
    exists flat',
      Decode.reconstruct pol runs flat cv pos = Ok flat' /\
      forall i, pos + sumZ runs <= Z.of_nat i ->
                nth_error flat' i = nth_error flat i.
Proof.
  induction runs as [|rl0 t IH]; intros flat cv pos Hcv Hpos Hruns.
  - exists flat. split; [reflexivity|auto].
  - inversion Hruns as [|? ? Hrl0 Ht]; subst.
    assert (Hcv' : 1 - cv = 0 \/ 1 - cv = 1) by lia.
    pose proof (sumZ_nonneg t Ht) as Hsum.
    cbn [Decode.reconstruct]. rewrite sumZ_cons.
    set (rl := if pos + rl0 >? len flat then len flat - pos else rl0).
    assert (Hrl : rl <= rl0).
    { subst rl. destruct (pos + rl0 >? len flat) eqn:E; [|lia].
      rewrite Z.gtb_ltb in E. apply Z.ltb_lt in E. lia. }
    destruct (rl >? 0) eqn:Epos.
    + rewrite Z.gtb_ltb in Epos. apply Z.ltb_lt in Epos.
      rewrite store_value_polarity by assumption. cbn [bind].
      destruct (IH (Decode.fill flat (Z.to_nat pos) (Z.to_nat rl) (cv * 255))
                   (1 - cv) (pos + rl) Hcv' ltac:(lia) Ht) as (flat' & E & Htail).
      exists flat'. split; [exact E|].
      intros i Hi. rewrite Htail by lia.
      apply fill_beyond. lia.
    + destruct (IH flat (1 - cv) pos Hcv' Hpos Ht) as (flat' & E & Htail).
      exists flat'. split; [exact E|].
      intros i Hi. apply Htail. lia.
Qed.

(** C5, as stated, fails.  Three streams cut short of their run count: with
    start value 1 and no entry left the only polarity known is foreground;
    with start value 1 and the single entry 2 the last run read is
    foreground; with start value 0 and the single entry 2 the polarity after
    the last flip is foreground.  In all three the cells that no run reached
    are background. *)
Lemma truncated_tail_is_background :
  (header_start_value (bytes_of [1; 1; 0; 2; 0; 1; 0; 0; 0]) = 1 /\
   header_run_count (bytes_of [1; 1; 0; 2; 0; 1; 0; 0; 0]) = 1 /\
   run_entries (bytes_of [1; 1; 0; 2; 0; 1; 0; 0; 0]) = [] /\
   rle_to_mask (zlib_compress (bytes_of [1; 1; 0; 2; 0; 1; 0; 0; 0]))
   = Some (mk_ndarray 1 2 [0; 0])) /\
  (header_run_count (bytes_of [1; 1; 0; 4; 0; 2; 0; 0; 0; 2; 0]) = 2 /\
   run_entries (bytes_of [1; 1; 0; 4; 0; 2; 0; 0; 0; 2; 0]) = [2] /\
   rle_to_mask (zlib_compress (bytes_of [1; 1; 0; 4; 0; 2; 0; 0; 0; 2; 0]))
   = Some (mk_ndarray 1 4 [255; 255; 0; 0])) /\
  (header_run_count (bytes_of [0; 1; 0; 4; 0; 2; 0; 0; 0; 2; 0]) = 2 /\
   run_entries (bytes_of [0; 1; 0; 4; 0; 2; 0; 0; 0; 2; 0]) = [2] /\
   rle_to_mask (zlib_compress (bytes_of [0; 1; 0; 4; 0; 2; 0; 0; 0; 2; 0]))
   = Some (mk_ndarray 1 4 [0; 0; 0; 0])).
Proof. vm_compute. repeat split. Qed.

(** C5 (amended): a stream with a 0/1 start value whose run array is cut
    short of the announced count still decodes.  The runs read are the
    complete entries present, the mask has the announced height and width,
    and every cell from the total of those runs onwards is background (0). *)
Theorem truncated_stream_decodes `{Platform} (rle_bytes data : list byte) :
  zlib_decompress rle_bytes = Ok data ->
  9 <= len data ->
  header_start_value data = 0 \/ header_start_value data = 1 ->
  len (run_entries data) < header_run_count data ->
  Decode.read_runs (Z.to_nat (header_run_count data)) (skipn 9 data)
  = run_entries data /\
  exists m,
    rle_to_mask rle_bytes = Some m /\
    height m = header_height data /\
    width m = header_width data /\
    len (pixels m) = header_height data * header_width data /\
    forall i, sumZ (run_entries data) <= Z.of_nat i < header_height data * header_width data ->
              nth_error (pixels m) i = Some 0.
Proof.
  intros Ez Hlen Hstart Hcut.
  assert (Hread : Decode.read_runs (Z.to_nat (header_run_count data)) (skipn 9 data)
                  = run_entries data).
  { apply read_runs_exhausted. unfold run_entries, len in *. lia. }
  split; [exact Hread|].
  do 9 (destruct data as [|? data]; [cbn in Hlen; lia|]).
  unfold header_start_value in Hstart. cbn [hd] in Hstart.
  unfold header_run_count in Hread. cbn [skipn firstn] in Hread.
  destruct (reconstruct_tail uint8_store (run_entries (b :: b0 :: b1 :: b2 :: b3 :: b4 :: b5 :: b6 :: b7 :: data))
              (repeat 0 (Z.to_nat (from_bytes [b0; b1] * from_bytes [b2; b3])))
              (Z_of_byte b) 0 Hstart ltac:(lia) (u16_entries_nonneg _))
    as (flat & Er & Htail).
  assert (Ed : Decode.decode_payload uint8_store
                 (b :: b0 :: b1 :: b2 :: b3 :: b4 :: b5 :: b6 :: b7 :: data)
               = Ok (Some (mk_ndarray (from_bytes [b0; b1]) (from_bytes [b2; b3]) flat))).
  { cbn [Decode.decode_payload]. rewrite Hread, Er. reflexivity. }
  exists (mk_ndarray (from_bytes [b0; b1]) (from_bytes [b2; b3]) flat).
  split.
  { unfold rle_to_mask. rewrite Ez. cbn [bind]. now rewrite Ed. }
  destruct (decode_payload_shape _ _ _ Ed) as (_ & Hh & Hw & Hpx).
  repeat split; try assumption.
  intros i Hi. cbn [pixels]. rewrite Htail by lia.
  unfold header_height, header_width in Hi. cbn [skipn firstn] in Hi.
  apply nth_error_repeat. lia.
Qed.

Lemma truncated_stream_decodes_witness :
  Decode.read_runs
    (Z.to_nat (header_run_count (bytes_of [1; 1; 0; 4; 0; 2; 0; 0; 0; 2; 0])))
    (skipn 9 (bytes_of [1; 1; 0; 4; 0; 2; 0; 0; 0; 2; 0]))
  = run_entries (bytes_of [1; 1; 0; 4; 0; 2; 0; 0; 0; 2; 0]) /\
  exists m,
    rle_to_mask (zlib_compress (bytes_of [1; 1; 0; 4; 0; 2; 0; 0; 0; 2; 0])) = Some m /\
    height m = header_height (bytes_of [1; 1; 0; 4; 0; 2; 0; 0; 0; 2; 0]) /\
    width m = header_width (bytes_of [1; 1; 0; 4; 0; 2; 0; 0; 0; 2; 0]) /\
    len (pixels m)
    = header_height (bytes_of [1; 1; 0; 4; 0; 2; 0; 0; 0; 2; 0])
      * header_width (bytes_of [1; 1; 0; 4; 0; 2; 0; 0; 0; 2; 0]) /\
    forall i,
      sumZ (run_entries (bytes_of [1; 1; 0; 4; 0; 2; 0; 0; 0; 2; 0])) <= Z.of_nat i
      < header_height (bytes_of [1; 1; 0; 4; 0; 2; 0; 0; 0; 2; 0])
        * header_width (bytes_of [1; 1; 0; 4; 0; 2; 0; 0; 0; 2; 0]) ->
      nth_error (pixels m) i = Some 0.
Proof.
  apply (truncated_stream_decodes
           (zlib_compress (bytes_of [1; 1; 0; 4; 0; 2; 0; 0; 0; 2; 0]))
           (bytes_of [1; 1; 0; 4; 0; 2; 0; 0; 0; 2; 0])).
  - reflexivity.
  - vm_compute. discriminate.
  - right. reflexivity.
  - vm_compute. reflexivity.
Defined.

(** ** Combining masks *)

Lemma broadcast_to_raises (h w : Z) (m : ndarray) (e : exn) :
  Geometry.broadcast_to h w m = Raise e -> e = BroadcastError.
Proof.
  unfold Geometry.broadcast_to.
  destruct (_ && _); [discriminate|]. now inversion 1.
Qed.

Lemma accumulate_raises (h w : Z) (pairs : list (ndarray * Q)) :
  forall combined e,
    Geometry.accumulate h w combined pairs = Raise e -> e = BroadcastError.
Proof.
  induction pairs as [|[m weight] t IH]; intros combined e E; cbn in E.
  - discriminate.
  - unfold Geometry.add_weighted in E.
    destruct (Geometry.broadcast_to h w m) as [px|e'] eqn:Eb; cbn in E.
    + now apply IH in E.
    + inversion E; subst. now apply broadcast_to_raises in Eb.
Qed.

(** C8: [combine_masks] raises the empty-input error exactly when it is
    given no mask, and then returns no mask. *)
Theorem combine_empty_input_iff (masks : list ndarray) (weights : option (list Q)) :
  Geometry.combine_masks masks weights = Raise EmptyInput <-> masks = [].
Proof.
  split.
  - destruct masks as [|m0 t]; [reflexivity|].
    unfold Geometry.combine_masks.
    match goal with
    | |- bind ?r _ = _ -> _ => destruct r as [c|e] eqn:Ea; cbn
    end.
    + discriminate.
    + intros E. inversion E; subst.
      apply accumulate_raises in Ea. discriminate.
  - intros ->. reflexivity.
Qed.

(** C2: the vote is taken on the raw cell values, not on [pixel / 255].
    With three equal-weight 0/255 masks a cell that is foreground in only one
    of them sums to 255, above the threshold 1.5, and comes out foreground;
    the same vote cast with 0/1 masks comes out background. *)
Theorem combine_single_vote_wins :
  Geometry.combine_masks [one_pixel 255; one_pixel 0; one_pixel 0] None
  = Ok (one_pixel 255) /\
  Geometry.combine_masks [one_pixel 1; one_pixel 0; one_pixel 0] None
  = Ok (one_pixel 0).
Proof. split; vm_compute; reflexivity. Qed.

(** ** The bounding box *)

Lemma least_ext (P Q : nat -> Prop) (n : nat) :
  (forall k, P k <-> Q k) -> least P n -> least Q n.
Proof. intros E [Hn Hmin]. split; [now apply E|]. intros k Hk. now apply Hmin, E. Qed.

Lemma greatest_ext (P Q : nat -> Prop) (n : nat) :
  (forall k, P k <-> Q k) -> greatest P n -> greatest Q n.
Proof. intros E [Hn Hmax]. split; [now apply E|]. intros k Hk. now apply Hmax, E. Qed.

Section Where.

Lemma np_any_false (v : list bool) :
  Geometry.np_any v = false -> forall k, ~ set_at v k.
Proof.
  unfold set_at. induction v as [|b t IH]; intros E k.
  - destruct k; discriminate.
  - cbn in E. apply orb_false_elim in E. destruct E as [-> Et].
    destruct k; [discriminate|]. cbn. now apply IH.
Qed.

Lemma np_any_true (v : list bool) :
  Geometry.np_any v = true <-> exists k, set_at v k.
Proof.
  split.
  - intros E. destruct (existsb_exists (fun b => b) v) as [Hex _].
    destruct (Hex E) as (b & Hin & ->).
    destruct (In_nth v true false Hin) as (k & _ & Hk). now exists k.
  - intros [k Hk]. destruct (Geometry.np_any v) eqn:E; [reflexivity|].
    now apply (np_any_false v E) in Hk.
Qed.

Lemma where_from_none (v : list bool) :
  Geometry.np_any v = false -> forall i, Geometry.where_from i v = [].
Proof.
  induction v as [|b t IH]; intros E i; [reflexivity|].
  cbn in E. apply orb_false_elim in E. destruct E as [-> Et]. cbn. now apply IH.
Qed.

Lemma where_from_first (v : list bool) :
  forall i, Geometry.np_any v = true ->
            exists k, hd O (Geometry.where_from i v) = (i + k)%nat /\ least (set_at v) k.
Proof.
  induction v as [|b t IH]; intros i E; [discriminate|].
  destruct b; cbn [Geometry.where_from].
  - exists O. split; [cbn; lia|]. split; [reflexivity|]. intros; lia.
  - cbn in E. destruct (IH (S i) E) as (k & Hk & Hset & Hmin).
    exists (S k). split; [lia|]. split; [exact Hset|].
    intros [|j] Hj; [discriminate|]. apply Hmin in Hj. lia.
Qed.

Lemma where_from_last (v : list bool) :
  forall i, Geometry.np_any v = true ->
            exists k, last (Geometry.where_from i v) O = (i + k)%nat /\ greatest (set_at v) k.
Proof.
  induction v as [|b t IH]; intros i E; [discriminate|].
  destruct (Geometry.np_any t) eqn:Et.
  - destruct (IH (S i) eq_refl) as (k & Hk & Hset & Hmax).
    exists (S k). split.
    + assert (Hne : Geometry.where_from (S i) t <> []).
      { intros Hnil. rewrite Hnil in Hk. cbn in Hk. lia. }
      destruct b; cbn [Geometry.where_from]; [|lia].
      destruct (Geometry.where_from (S i) t) as [|j l]; [now contradiction Hne|].
      change (last (i :: j :: l) O) with (last (j :: l) O). lia.
    + split; [exact Hset|].
      intros [|j] Hj; [lia|]. apply Hmax in Hj. lia.
  - destruct b; [|unfold Geometry.np_any in *; cbn in E; congruence].
    exists O. split.
    + cbn [Geometry.where_from]. rewrite where_from_none by assumption. cbn. lia.
    + split; [reflexivity|].
      intros [|j] Hj; [lia|]. now apply (np_any_false t Et) in Hj.
Qed.

Lemma np_where_extremes (v : list bool) :
  Geometry.np_any v = true ->
  least (set_at v) (hd O (Geometry.np_where v)) /\
  greatest (set_at v) (last (Geometry.np_where v) O).
Proof.
  intros E. unfold Geometry.np_where.
  destruct (where_from_first v O E) as (k1 & -> & H1).
  destruct (where_from_last v O E) as (k2 & -> & H2).
  now split.
Qed.

End Where.

Section Rows.

Lemma chunks_length (n w : nat) : forall l, length (Geometry.chunks n w l) = n.
Proof. induction n as [|n IH]; intros l; cbn; auto. Qed.

Lemma chunks_row (n w : nat) :
  forall l row, In row (Geometry.chunks n w l) ->
                (length row <= w)%nat /\ incl row l.
Proof.
  induction n as [|n IH]; intros l row Hin; [contradiction|].
  destruct Hin as [<-|Hin].
  - split.
    + rewrite length_firstn. lia.
    + intros x Hx. rewrite <- (firstn_skipn w l). apply in_or_app. now left.
  - destruct (IH _ _ Hin) as [Hlen Hincl]. split; [exact Hlen|].
    intros x Hx. rewrite <- (firstn_skipn w l). apply in_or_app. right. now apply Hincl.
Qed.

Variable m : ndarray.

Lemma rows_of_length : length (Geometry.rows_of m) = Z.to_nat (height m).
Proof. apply chunks_length. Qed.

Lemma nth_pos_In (l : list Z) (c : nat) :
  0 < nth c l 0 -> (c < length l)%nat /\ In (nth c l 0) l.
Proof.
  intros Hpos. destruct (Nat.lt_ge_cases c (length l)) as [Hlt|Hge].
  - split; [exact Hlt|]. now apply nth_In.
  - rewrite nth_overflow in Hpos by assumption. lia.
Qed.

Lemma row_in_range (r : nat) :
  nth r (Geometry.rows_of m) [] <> [] ->
  (r < Z.to_nat (height m))%nat /\ In (nth r (Geometry.rows_of m) []) (Geometry.rows_of m).
Proof.
  intros Hne. destruct (Nat.lt_ge_cases r (length (Geometry.rows_of m))) as [Hlt|Hge].
  - split; [now rewrite <- rows_of_length|]. now apply nth_In.
  - rewrite nth_overflow in Hne by assumption. congruence.
Qed.

(** A positive cell lies inside the array and in its buffer. *)
Lemma pixel_at_pos (r c : nat) :
  0 < Geometry.pixel_at m r c ->
  foreground m r c /\ In (Geometry.pixel_at m r c) (pixels m).
Proof.
  unfold foreground, Geometry.pixel_at. intros Hpos.
  destruct (nth_pos_In _ _ Hpos) as [Hc Hin].
  assert (Hne : nth r (Geometry.rows_of m) [] <> []).
  { intros E. rewrite E in Hc. cbn in Hc. lia. }
  destruct (row_in_range r Hne) as [Hr Hrow].
  destruct (chunks_row _ _ _ _ Hrow) as [Hlen Hincl].
  repeat split; try assumption; [lia|]. now apply Hincl.
Qed.

Lemma any_axis1_spec (r : nat) :
  set_at (Geometry.any_axis1 m) r <-> row_has_foreground m r.
Proof.
  unfold set_at, Geometry.any_axis1, row_has_foreground.
  change false with (existsb (fun p => p >? 0) []).
  rewrite map_nth. rewrite existsb_exists. split.
  - intros (x & Hin & Hx). rewrite Z.gtb_ltb in Hx. apply Z.ltb_lt in Hx.
    destruct (In_nth _ _ 0 Hin) as (c & _ & Ec). exists c.
    apply pixel_at_pos. unfold Geometry.pixel_at. now rewrite Ec.
  - intros (c & _ & _ & Hpos). unfold Geometry.pixel_at in Hpos.
    destruct (nth_pos_In _ _ Hpos) as [_ Hin].
    eexists. split; [exact Hin|]. rewrite Z.gtb_ltb. now apply Z.ltb_lt.
Qed.

Lemma any_axis0_spec (c : nat) :
  set_at (Geometry.any_axis0 m) c <-> col_has_foreground m c.
Proof.
  unfold set_at, Geometry.any_axis0, col_has_foreground.
  set (g := fun c0 => existsb (fun row => nth c0 row 0 >? 0) (Geometry.rows_of m)).
  destruct (Nat.lt_ge_cases c (Z.to_nat (width m))) as [Hlt|Hge].
  - rewrite (nth_indep _ false (g O)) by (now rewrite length_map, length_seq).
    rewrite map_nth, seq_nth by assumption. cbn [Nat.add]. subst g. cbv beta.
    rewrite existsb_exists. split.
    + intros (row & Hin & Hx). rewrite Z.gtb_ltb in Hx. apply Z.ltb_lt in Hx.
      destruct (In_nth _ _ [] Hin) as (r & _ & Er). exists r.
      apply pixel_at_pos. unfold Geometry.pixel_at. now rewrite Er.
    + intros (r & Hr & _ & Hpos). unfold Geometry.pixel_at in Hpos.
      exists (nth r (Geometry.rows_of m) []). split.
      * apply nth_In. now rewrite rows_of_length.
      * rewrite Z.gtb_ltb. now apply Z.ltb_lt.
  - rewrite nth_overflow by (now rewrite length_map, length_seq). split.
    + discriminate.
    + intros (r & _ & Hc & _). lia.
Qed.

End Rows.

Lemma get_bounding_box_zero_size (m : ndarray) :
  pixels m = [] -> Geometry.get_bounding_box m = Raise ZeroSizeReduction.
Proof. intros E. unfold Geometry.get_bounding_box. now rewrite E. Qed.

(** C7, as stated, fails on a mask without pixels: [mask.max()] raises on a
    zero-size array and no box is returned. *)
Lemma bounding_box_zero_pixel_raises :
  Geometry.get_bounding_box zero_pixel_mask = Raise ZeroSizeReduction.
Proof. reflexivity. Qed.

(** C7 (amended): for every mask with at least one pixel, the box is
    (0, 0, 1, 1) when no cell is foreground; otherwise it is
    (x_min / width, y_min / height, (x_max - x_min + 1) / width,
    (y_max - y_min + 1) / height) for the least and greatest columns and rows
    holding a foreground cell.  A single foreground cell at row 0, column 0
    of a 10 x 10 mask gives (0, 0, 1/10, 1/10). *)
Theorem bounding_box_spec (m : ndarray) :
  pixels m <> [] ->
  ((forall r c, ~ foreground m r c) ->
   Geometry.get_bounding_box m = Ok Geometry.full_frame) /\
  ((exists r c, foreground m r c) ->
   exists x_min x_max y_min y_max,
     least (col_has_foreground m) x_min /\
     greatest (col_has_foreground m) x_max /\
     least (row_has_foreground m) y_min /\
     greatest (row_has_foreground m) y_max /\
     Geometry.get_bounding_box m
     = Ok (Geometry.mk_box
             (Geometry.of_nat x_min / inject_Z (width m))
             (Geometry.of_nat y_min / inject_Z (height m))
             (Geometry.of_nat (x_max - x_min + 1) / inject_Z (width m))
             (Geometry.of_nat (y_max - y_min + 1) / inject_Z (height m)))%Q) /\
  (exists b,
     Geometry.get_bounding_box single_pixel_10x10 = Ok b /\
     Geometry.box_eq b (Geometry.mk_box 0 0 (1 # 10) (1 # 10))).
Proof.
  intros Hne.
  destruct (np_max_nonempty _ Hne) as (mx & Emx & Hub & _).
  split; [|split].
  - intros Hnone. unfold Geometry.get_bounding_box. rewrite Emx. cbn [bind].
    destruct (mx =? 0); [reflexivity|].
    assert (E : Geometry.np_any (Geometry.any_axis1 m) = false).
    { destruct (Geometry.np_any (Geometry.any_axis1 m)) eqn:E; [|reflexivity].
      apply np_any_true in E. destruct E as [r Hr].
      apply any_axis1_spec in Hr. destruct Hr as [c Hc]. now apply Hnone in Hc. }
    now rewrite E.
  - intros (r & c & Hfg).
    assert (Hrows : Geometry.np_any (Geometry.any_axis1 m) = true).
    { apply np_any_true. exists r. apply any_axis1_spec. now exists c. }
    assert (Hcols : Geometry.np_any (Geometry.any_axis0 m) = true).
    { apply np_any_true. exists c. apply any_axis0_spec. now exists r. }
    destruct (np_where_extremes _ Hrows) as [Hymin Hymax].
    destruct (np_where_extremes _ Hcols) as [Hxmin Hxmax].
    exists (hd O (Geometry.np_where (Geometry.any_axis0 m))),
           (last (Geometry.np_where (Geometry.any_axis0 m)) O),
           (hd O (Geometry.np_where (Geometry.any_axis1 m))),
           (last (Geometry.np_where (Geometry.any_axis1 m)) O).
    split; [exact (least_ext _ _ _ (any_axis0_spec m) Hxmin)|].
    split; [exact (greatest_ext _ _ _ (any_axis0_spec m) Hxmax)|].
    split; [exact (least_ext _ _ _ (any_axis1_spec m) Hymin)|].
    split; [exact (greatest_ext _ _ _ (any_axis1_spec m) Hymax)|].
    unfold Geometry.get_bounding_box. rewrite Emx. cbn [bind].
    assert (Hmx : (mx =? 0) = false).
    { apply Z.eqb_neq. destruct Hfg as (_ & _ & Hpos).
      destruct (pixel_at_pos m r c Hpos) as [_ Hin]. apply Hub in Hin. lia. }
    rewrite Hmx, Hrows, Hcols. reflexivity.
  - eexists. split; [vm_compute; reflexivity|].
    unfold Geometry.box_eq. cbn. repeat split.
Qed.

Lemma bounding_box_spec_witness :
  pixels (mk_ndarray 2 3 [0; 0; 0; 0; 255; 255]) <> [] /\
  exists x_min x_max y_min y_max,
    least (col_has_foreground (mk_ndarray 2 3 [0; 0; 0; 0; 255; 255])) x_min /\
    greatest (col_has_foreground (mk_ndarray 2 3 [0; 0; 0; 0; 255; 255])) x_max /\
    least (row_has_foreground (mk_ndarray 2 3 [0; 0; 0; 0; 255; 255])) y_min /\
    greatest (row_has_foreground (mk_ndarray 2 3 [0; 0; 0; 0; 255; 255])) y_max /\
    Geometry.get_bounding_box (mk_ndarray 2 3 [0; 0; 0; 0; 255; 255])
    = Ok (Geometry.mk_box
            (Geometry.of_nat x_min / inject_Z 3)
            (Geometry.of_nat y_min / inject_Z 2)
            (Geometry.of_nat (x_max - x_min + 1) / inject_Z 3)
            (Geometry.of_nat (y_max - y_min + 1) / inject_Z 2))%Q.
Proof.
  assert (Hne : pixels (mk_ndarray 2 3 [0; 0; 0; 0; 255; 255]) <> []) by discriminate.
  split; [exact Hne|].
  apply (proj1 (proj2 (bounding_box_spec (mk_ndarray 2 3 [0; 0; 0; 0; 255; 255]) Hne))).
  exists 1%nat, 1%nat. unfold foreground. cbn. repeat split; lia.
Defined.

(** ** Where the round trip does hold

    The remaining lemmas delimit the defect shown above: a mask whose first
    cell is foreground and whose runs all fit 16 bits is reproduced by decode. *)

Lemma Z_of_byte_of_Z (z : Z) : 0 <= z < 256 -> Z_of_byte (byte_of_Z z) = z.
Proof.
  intros Hz. unfold Z_of_byte, byte_of_Z.
  destruct (Byte.of_N (Z.to_N z)) as [b|] eqn:E.
  - apply Byte.to_of_N in E. rewrite E. lia.
  - apply Byte.of_N_None_iff in E. lia.
Qed.

Lemma Z_of_byte_bounded (b : byte) : 0 <= Z_of_byte b < 256.
Proof.
  unfold Z_of_byte. pose proof (Byte.to_N_bounded b). lia.
Qed.

Lemma from_bytes_cons (b : byte) (bs : list byte) :
  from_bytes (b :: bs) = Z_of_byte b + 256 * from_bytes bs.
Proof. reflexivity. Qed.

Lemma from_le_bytes (k : nat) :
  forall n, 0 <= n < 256 ^ Z.of_nat k -> from_bytes (le_bytes k n) = n.
Proof.
  induction k as [|k IH]; intros n Hn.
  - cbn in *. lia.
  - cbn [le_bytes]. rewrite from_bytes_cons.
    rewrite Nat2Z.inj_succ, Z.pow_succ_r in Hn by lia.
    rewrite Z_of_byte_of_Z by (apply Z.mod_pos_bound; lia).
    rewrite IH.
    + pose proof (Z.div_mod n 256 ltac:(lia)). lia.
    + split; [apply Z.div_pos; lia|]. apply Z.div_lt_upper_bound; lia.
Qed.

Lemma np_diff_changes_from (l : list Z) :
  forall c0 i prev,
    np_diff (c0 :: changes_from i prev l) = gaps (i - c0) prev l.
Proof.
  induction l as [|x t IH]; intros c0 i prev; [reflexivity|].
  cbn [changes_from gaps]. destruct (x =? prev).
  - rewrite IH. f_equal. lia.
  - change (np_diff (c0 :: i :: changes_from (i + 1) x t))
      with ((i - c0) :: np_diff (i :: changes_from (i + 1) x t)).
    rewrite IH. do 2 f_equal. lia.
Qed.

Lemma changes_from_constant (l : list Z) :
  forall i prev, Forall (fun p => p = prev) l -> changes_from i prev l = [].
Proof.
  induction l as [|x t IH]; intros i prev Hl; [reflexivity|].
  inversion Hl; subst. cbn. rewrite Z.eqb_refl. now apply IH.
Qed.

Lemma run_lengths_foreground_first (t : list Z) :
  Encode.run_lengths_of (1 :: t) = gaps 1 1 (t ++ [0]).
Proof.
  unfold Encode.run_lengths_of, changes. cbn [app changes_from].
  change (1 =? 0) with false. cbv iota.
  rewrite np_diff_changes_from. reflexivity.
Qed.

Lemma run_lengths_all_background (flat : list Z) :
  Forall (fun p => p = 0) flat -> Encode.run_lengths_of flat = [].
Proof.
  intros Hz. unfold Encode.run_lengths_of, changes.
  rewrite changes_from_constant; [reflexivity|].
  apply Forall_app. split; [assumption|]. now constructor.
Qed.

Lemma repeat_snoc {A} (x : A) (n : nat) : repeat x n ++ [x] = repeat x (S n).
Proof. induction n as [|n IH]; cbn; [reflexivity|]. now rewrite IH. Qed.

Lemma last_cons_default {A} (t : list A) :
  forall x d, last (x :: t) d = last t x.
Proof.
  induction t as [|y t IH]; intros x d; [reflexivity|].
  change (last (x :: y :: t) d) with (last (y :: t) d).
  now rewrite !IH.
Qed.

(** The scanned cells are the expansion of the gaps followed by the run
    that was still open when the scan ended. *)
Lemma gaps_expand (l : list Z) :
  forall d prev,
    1 <= d -> prev = 0 \/ prev = 1 -> logical l ->
    Forall (fun g => 0 < g) (gaps d prev l) /\
    exists k,
      repeat prev (Z.to_nat d) ++ l
      = expand 1 prev (gaps d prev l) ++ repeat (last l prev) (S k).
Proof.
  induction l as [|x t IH]; intros d prev Hd Hprev Hlog.
  - split; [constructor|]. exists (Z.to_nat d - 1)%nat. cbn [gaps expand app last].
    rewrite app_nil_r. f_equal. lia.
  - inversion Hlog as [|? ? Hx Ht]; subst. cbn [gaps].
    destruct (x =? prev) eqn:E.
    + apply Z.eqb_eq in E. subst x.
      destruct (IH (d + 1) prev ltac:(lia) Hprev Ht) as (Hpos & k & Hk).
      split; [exact Hpos|]. exists k.
      rewrite last_cons_default.
      rewrite <- Hk.
      replace (Z.to_nat (d + 1)) with (S (Z.to_nat d)) by lia.
      rewrite <- repeat_snoc, <- app_assoc. reflexivity.
    + apply Z.eqb_neq in E.
      assert (Ex : x = 1 - prev) by lia.
      destruct (IH 1 x ltac:(lia) Hx Ht) as (Hpos & k & Hk).
      split; [constructor; [lia|exact Hpos]|]. exists k.
      cbn [expand]. rewrite Z.mul_1_r, <- Ex, <- app_assoc.
      rewrite last_cons_default.
      rewrite <- Hk. reflexivity.
Qed.

Lemma sumZ_expand_length (scale cv : Z) (runs : list Z) :
  Forall (fun g => 0 < g) runs -> len (expand scale cv runs) = sumZ runs.
Proof.
  intros Hpos. revert cv. induction Hpos as [|g t Hg Ht IH]; intros cv; [reflexivity|].
  cbn [expand]. unfold len in *. rewrite length_app, repeat_length, sumZ_cons.
  rewrite Nat2Z.inj_add, IH. lia.
Qed.

(** A logical buffer that starts with foreground is the expansion of its
    run lengths followed by background. *)
Lemma flat_is_expansion (t : list Z) :
  logical (1 :: t) ->
  Forall (fun g => 0 < g) (Encode.run_lengths_of (1 :: t)) /\
  exists k, 1 :: t = expand 1 1 (Encode.run_lengths_of (1 :: t)) ++ repeat 0 k.
Proof.
  intros Hlog. rewrite run_lengths_foreground_first.
  assert (Hlog' : logical (t ++ [0])).
  { inversion Hlog; subst. apply Forall_app. split; [assumption|]. constructor; auto. }
  destruct (gaps_expand (t ++ [0]) 1 1 ltac:(lia) ltac:(auto) Hlog') as (Hpos & k & Hk).
  split; [exact Hpos|]. exists k.
  rewrite last_last in Hk.
  assert (Hk' : (1 :: t) ++ [0]
                = (expand 1 1 (gaps 1 1 (t ++ [0])) ++ repeat 0 k) ++ [0]).
  { rewrite <- app_assoc, repeat_snoc. exact Hk. }
  now apply app_inj_tail in Hk'.
Qed.

Lemma fill_exact (pre : list Z) :
  forall mid post v,
    Decode.fill (pre ++ mid ++ post) (length pre) (length mid) v
    = pre ++ repeat v (length mid) ++ post.
Proof.
  induction pre as [|x pre IH]; intros mid post v.
  - cbn [app length]. induction mid as [|y mid IHm].
    + destruct post; reflexivity.
    + cbn. f_equal. exact IHm.
  - cbn. f_equal. apply IH.
Qed.

Lemma expand_scale (runs : list Z) :
  forall cv, map (Z.mul 255) (expand 1 cv runs) = expand 255 cv runs.
Proof.
  induction runs as [|rl t IH]; intros cv'; [reflexivity|].
  cbn [expand]. rewrite map_app, map_repeat, IH. do 2 f_equal. lia.
Qed.

(** Runs that fit the buffer are written one after the other. *)
Lemma reconstruct_expand (pol : store_policy) (runs : list Z) :
  forall pre mid post cv,
    cv = 0 \/ cv = 1 -> Forall (fun g => 0 < g) runs -> len mid = sumZ runs ->
    Decode.reconstruct pol runs (pre ++ mid ++ post) cv (len pre)
    = Ok (pre ++ expand 255 cv runs ++ post).
Proof.
  induction runs as [|rl0 t IH]; intros pre mid post cv Hcv Hruns Hmid.
  - destruct mid; [reflexivity|]. cbn in Hmid. unfold len in Hmid. cbn in Hmid. lia.
  - inversion Hruns as [|? ? Hrl0 Ht]; subst.
    rewrite sumZ_cons in Hmid. pose proof (sumZ_nonneg t ltac:(eapply Forall_impl; [|exact Ht]; cbn; lia)) as Hsum.
    set (mid1 := firstn (Z.to_nat rl0) mid).
    set (mid2 := skipn (Z.to_nat rl0) mid).
    assert (Emid : mid = mid1 ++ mid2) by (symmetry; apply firstn_skipn).
    assert (Hlen1 : length mid1 = Z.to_nat rl0).
    { subst mid1. rewrite length_firstn. unfold len in Hmid. lia. }
    assert (Hlen2 : len mid2 = sumZ t).
    { unfold len in *. rewrite Emid, length_app in Hmid. lia. }
    cbn [Decode.reconstruct].
    assert (Hfit : (len pre + rl0 >? len (pre ++ mid ++ post)) = false).
    { rewrite Z.gtb_ltb. apply Z.ltb_ge. unfold len in *.
      rewrite !length_app. lia. }
    rewrite Hfit.
    replace (rl0 >? 0) with true by (symmetry; rewrite Z.gtb_ltb; now apply Z.ltb_lt).
    rewrite store_value_polarity by assumption. cbn [bind].
    replace (Z.to_nat (len pre)) with (length pre) by (unfold len; lia).
    rewrite Emid, <- Hlen1, <- app_assoc, fill_exact.
    rewrite (app_assoc pre (repeat _ _)).
    replace (len pre + rl0)
      with (len (pre ++ repeat (cv * 255) (length mid1)))
      by (unfold len; rewrite length_app, repeat_length; lia).
    rewrite IH by (assumption || lia).
    cbn [expand]. rewrite Hlen1, <- !app_assoc. reflexivity.
Qed.

Lemma emit_runs_u16 (runs : list Z) :
  Forall (fun g => 0 < g <= 65535) runs ->
  Encode.emit_runs runs = Ok (u16_bytes runs).
Proof.
  induction 1 as [|g t Hg Ht IH]; [reflexivity|].
  cbn [Encode.emit_runs].
  pose proof (emit_run_entries O (Z.to_nat g) g Hg ltac:(lia)) as E.
  replace (g + 65535 * Z.of_nat 0) with g in E by lia.
  rewrite E, IH. cbn [bind split_entries]. unfold u16_bytes. cbn [flat_map].
  now rewrite app_nil_r.
Qed.

Lemma read_runs_u16 (runs : list Z) :
  Forall (fun g => 0 < g <= 65535) runs ->
  Decode.read_runs (length runs) (u16_bytes runs) = runs.
Proof.
  induction 1 as [|g t Hg Ht IH]; [reflexivity|].
  unfold u16_bytes. cbn [flat_map length]. fold (u16_bytes t).
  pose proof (from_le_bytes 2 g ltac:(change (256 ^ Z.of_nat 2) with 65536; lia)) as E.
  cbn [le_bytes] in *. cbn [app Decode.read_runs]. now rewrite E, IH.
Qed.

Lemma to_bytes_u32 (n : Z) :
  0 <= n < 4294967296 -> to_bytes 4 n = Ok (le_bytes 4 n).
Proof.
  intros Hn. unfold to_bytes.
  replace (n <? 0) with false by (symmetry; apply Z.ltb_ge; lia).
  replace (256 ^ Z.of_nat 4 <=? n) with false; [reflexivity|].
  symmetry. apply Z.leb_gt. change (256 ^ Z.of_nat 4) with 4294967296. lia.
Qed.

(** Decoding a buffer that starts with a header in range. *)
Lemma decode_payload_header (pol : store_policy) (s h w n : Z) (rest : list byte) :
  0 <= s < 256 -> 0 <= h <= 65535 -> 0 <= w <= 65535 -> 0 <= n < 4294967296 ->
  Decode.decode_payload pol
    ([byte_of_Z s] ++ le_bytes 2 h ++ le_bytes 2 w ++ le_bytes 4 n ++ rest)
  = (flat <- Decode.reconstruct pol (Decode.read_runs (Z.to_nat n) rest)
               (repeat 0 (Z.to_nat (h * w))) s 0 ;;
     Ok (Some (mk_ndarray h w flat))).
Proof.
  intros Hs Hh Hw Hn.
  pose proof (from_le_bytes 2 h ltac:(change (256 ^ Z.of_nat 2) with 65536; lia)) as Eh.
  pose proof (from_le_bytes 2 w ltac:(change (256 ^ Z.of_nat 2) with 65536; lia)) as Ew.
  pose proof (from_le_bytes 4 n ltac:(change (256 ^ Z.of_nat 4) with 4294967296; lia)) as En.
  cbn [le_bytes] in *. cbn [app Decode.decode_payload].
  now rewrite Eh, Ew, En, Z_of_byte_of_Z.
Qed.

Lemma len_le_sumZ (runs : list Z) :
  Forall (fun g => 0 < g) runs -> len runs <= sumZ runs.
Proof.
  unfold len. induction 1 as [|g t Hg Ht IH]; [cbn; lia|].
  rewrite sumZ_cons. cbn [length]. lia.
Qed.

Section PartialRoundTrip.

Context `{Platform}.

Variable m : ndarray.
Hypothesis Hshape : well_shaped m.
Hypothesis Hheight : height m <= 65535.
Hypothesis Hwidth : width m <= 65535.
Hypothesis Hlogical : logical (pixels m).

Lemma pixel_count_u32 : 0 <= len (pixels m) < 4294967296.
Proof.
  destruct Hshape as (Hh & Hw & Hlen). rewrite Hlen. split; nia.
Qed.

(** A 0/255 mask that starts with foreground and has no run longer than
    65535 is reproduced by decode. *)
Lemma roundtrip_foreground_first :
  hd 0 (pixels m) = 1 ->
  Forall (fun g => g <= 65535) (Encode.run_lengths_of (pixels m)) ->
  roundtrip (scale255 m) = Ok (Some (scale255 m)).
Proof.
  intros Hfirst Hshort.
  destruct Hshape as (Hh & Hw & Hlen).
  destruct (pixels m) as [|x t] eqn:Epx; [discriminate|].
  cbn [hd] in Hfirst. subst x.
  destruct (flat_is_expansion t Hlogical) as (Hpos & k & Hk).
  set (runs := Encode.run_lengths_of (1 :: t)) in *.
  assert (Hruns : Forall (fun g => 0 < g <= 65535) runs).
  { rewrite Forall_forall in *. intros g Hg. split; auto. }
  assert (Hsum : len (1 :: t) = sumZ runs + Z.of_nat k).
  { rewrite Hk at 1. unfold len. rewrite length_app, repeat_length, Nat2Z.inj_add.
    fold (len (expand 1 1 runs)). now rewrite sumZ_expand_length. }
  pose proof (len_le_sumZ runs Hpos) as Hcount.
  pose proof pixel_count_u32 as Hu32. rewrite Epx in Hu32.
  assert (Hn : 0 <= len runs < 4294967296) by (unfold len in *; lia).
  assert (Epayload :
            Encode.rle_payload (scale255 m)
            = Ok ([byte_of_Z 1] ++ le_bytes 2 (height m) ++ le_bytes 2 (width m)
                  ++ le_bytes 4 (len runs) ++ u16_bytes runs)).
  { unfold Encode.rle_payload, scale255. cbn [pixels height width]. rewrite Epx.
    rewrite binarize_scaled by (assumption || discriminate). cbn [bind].
    fold runs.
    rewrite !to_bytes_u16 by lia. cbn [bind].
    rewrite to_bytes_u32 by assumption. cbn [bind].
    rewrite emit_runs_u16 by assumption. reflexivity. }
  rewrite (roundtrip_payload _ _ Epayload).
  rewrite decode_payload_header by lia.
  replace (Z.to_nat (len runs)) with (length runs) by (unfold len; lia).
  rewrite read_runs_u16 by assumption.
  assert (Ezeros : repeat 0 (Z.to_nat (height m * width m))
                   = [] ++ repeat 0 (Z.to_nat (sumZ runs)) ++ repeat 0 k).
  { cbn [app]. rewrite <- repeat_app. f_equal.
    pose proof (sumZ_nonneg runs ltac:(eapply Forall_impl; [|exact Hpos]; cbn; lia)).
    lia. }
  rewrite Ezeros.
  change 0 with (len (@nil Z)) at 3.
  rewrite reconstruct_expand;
    [|auto|assumption|].
  2:{ unfold len. rewrite repeat_length.
      pose proof (sumZ_nonneg runs ltac:(eapply Forall_impl; [|exact Hpos]; cbn; lia)).
      lia. }
  cbn [bind try_except app]. do 2 f_equal.
  unfold scale255. rewrite Epx. f_equal.
  rewrite Hk at 1. rewrite map_app, expand_scale, map_repeat. reflexivity.
Qed.

(** So is a mask that is background throughout. *)
Lemma roundtrip_all_background :
  pixels m <> [] ->
  Forall (fun p => p = 0) (pixels m) ->
  roundtrip (scale255 m) = Ok (Some (scale255 m)).
Proof.
  intros Hne Hzero.
  destruct Hshape as (Hh & Hw & Hlen).
  assert (Eruns : Encode.run_lengths_of (pixels m) = [])
    by now apply run_lengths_all_background.
  assert (Epx : pixels m = repeat 0 (Z.to_nat (height m * width m))).
  { rewrite <- Hlen. unfold len. rewrite Nat2Z.id.
    apply Forall_eq_repeat. eapply Forall_impl; [|exact Hzero]. cbn. auto. }
  assert (Epayload :
            Encode.rle_payload (scale255 m)
            = Ok ([byte_of_Z 0] ++ le_bytes 2 (height m) ++ le_bytes 2 (width m)
                  ++ le_bytes 4 0 ++ [])).
  { unfold Encode.rle_payload, scale255. cbn [pixels height width].
    rewrite binarize_scaled by assumption. cbn [bind].
    destruct (pixels m) as [|x t] eqn:E; [congruence|].
    inversion Hzero; subst x. rewrite Eruns.
    rewrite !to_bytes_u16 by lia. reflexivity. }
  rewrite (roundtrip_payload _ _ Epayload).
  rewrite decode_payload_header by lia.
  cbn [Z.to_nat Decode.read_runs Decode.reconstruct bind try_except].
  do 2 f_equal. unfold scale255. f_equal.
  rewrite Epx, map_repeat. reflexivity.
Qed.

End PartialRoundTrip.

Example roundtrip_2x2 `{Platform} :
  roundtrip (scale255 (mk_ndarray 2 2 [1; 0; 1; 1]))
  = Ok (Some (scale255 (mk_ndarray 2 2 [1; 0; 1; 1]))).
Proof.
  apply roundtrip_foreground_first.
  - unfold well_shaped. cbn. lia.
  - cbn. lia.
  - cbn. lia.
  - unfold logical. cbn. repeat (apply Forall_cons; [lia|]). apply Forall_nil.
  - reflexivity.
  - vm_compute. repeat (apply Forall_cons; [discriminate|]). apply Forall_nil.
Qed.

(** ** The 2-D view is the row-major reading of the buffer *)

Lemma chunks_nth (n w : nat) :
  forall l r, (r < n)%nat ->
              nth r (Geometry.chunks n w l) [] = firstn w (skipn (r * w) l).
Proof.
  induction n as [|n IH]; intros l r Hr; [lia|].
  destruct r as [|r]; [reflexivity|].
  cbn [Geometry.chunks nth]. rewrite IH by lia. rewrite skipn_skipn.
  do 2 f_equal. cbn. lia.
Qed.

Lemma pixel_at_row_major (m : ndarray) (r c : nat) :
  (r < Z.to_nat (height m))%nat -> (c < Z.to_nat (width m))%nat ->
  Geometry.pixel_at m r c = nth (r * Z.to_nat (width m) + c) (pixels m) 0.
Proof.
  intros Hr Hc. unfold Geometry.pixel_at, Geometry.rows_of.
  rewrite chunks_nth by assumption. rewrite nth_firstn.
  apply Nat.ltb_lt in Hc. rewrite Hc. apply nth_skipn.
Qed.

(** ** What [combine_masks] computes on masks of one shape *)







(** * Further properties of the codec *)

(** ** What the encoder writes *)

Lemma sumZ_app (a b : list Z) : sumZ (a ++ b) = sumZ a + sumZ b.
Proof.
  induction a as [|x a IH]; [reflexivity|].
  cbn [app]. rewrite !sumZ_cons, IH. lia.
Qed.

Lemma gaps_bounds (l : list Z) :
  forall d prev,
    1 <= d ->
    Forall (fun g => 0 < g) (gaps d prev l) /\
    sumZ (gaps d prev l) <= d + len l - 1.
Proof.
  unfold len. induction l as [|x t IH]; intros d prev Hd.
  - split; [constructor|cbn; lia].
  - cbn [gaps]. destruct (x =? prev).
    + destruct (IH (d + 1) x ltac:(lia)) as [Hpos Hsum].
      split; [exact Hpos|]. cbn [length]. lia.
    + destruct (IH 1 x ltac:(lia)) as [Hpos Hsum].
      split; [constructor; [lia|exact Hpos]|].
      rewrite sumZ_cons. cbn [length]. lia.
Qed.

Lemma diff_changes_bounds (l : list Z) :
  forall i prev,
    Forall (fun g => 0 < g) (np_diff (changes_from i prev l)) /\
    sumZ (np_diff (changes_from i prev l)) <= Z.max 0 (len l - 1).
Proof.
  unfold len. induction l as [|x t IH]; intros i prev.
  - split; [constructor|cbn; lia].
  - cbn [changes_from]. destruct (x =? prev).
    + destruct (IH (i + 1) x) as [Hpos Hsum].
      split; [exact Hpos|]. cbn [length]. lia.
    + rewrite np_diff_changes_from.
      replace (i + 1 - i) with 1 by lia.
      destruct (gaps_bounds t 1 x ltac:(lia)) as [Hpos Hsum].
      split; [exact Hpos|]. unfold len in Hsum. cbn [length]. lia.
Qed.

(** The run lengths found in any buffer are positive and total at most its
    length. *)
Lemma run_lengths_bounds (flat : list Z) :
  Forall (fun g => 0 < g) (Encode.run_lengths_of flat) /\
  sumZ (Encode.run_lengths_of flat) <= len flat.
Proof.
  unfold Encode.run_lengths_of, changes.
  destruct (diff_changes_bounds (flat ++ [0]) 0 0) as [Hpos Hsum].
  split; [exact Hpos|].
  unfold len in *. rewrite length_app in Hsum. cbn [length] in Hsum. lia.
Qed.

Lemma split_entries_bounds (k : nat) (r : Z) :
  0 < r <= 65535 ->
  Forall (fun e => 0 <= e <= 65535) (split_entries k r) /\
  sumZ (split_entries k r) = r + 65535 * Z.of_nat k.
Proof.
  intros Hr. induction k as [|k [IHb IHs]].
  - split; [repeat constructor; lia|cbn; lia].
  - cbn [split_entries]. split.
    + repeat (constructor; [lia|]). exact IHb.
    + rewrite !sumZ_cons, IHs. lia.
Qed.

Lemma u16_bytes_app (a b : list Z) : u16_bytes (a ++ b) = u16_bytes a ++ u16_bytes b.
Proof. unfold u16_bytes. apply flat_map_app. Qed.

(** Whatever the run lengths, each entry written fits 16 bits and the entries
    add up to the run lengths. *)
Lemma emit_runs_entries (runs : list Z) :
  Forall (fun g => 0 < g) runs ->
  exists entries,
    Encode.emit_runs runs = Ok (u16_bytes entries) /\
    Forall (fun e => 0 <= e <= 65535) entries /\
    sumZ entries = sumZ runs.
Proof.
  induction 1 as [|g t Hg Ht (entries & E & Hb & Hs)].
  - exists []. repeat split. constructor.
  - destruct (run_decomposition g Hg) as (k & r & Hr & Ek & Hfuel).
    destruct (split_entries_bounds k r Hr) as [Hb1 Hs1].
    exists (split_entries k r ++ entries).
    cbn [Encode.emit_runs]. rewrite Ek at 2.
    rewrite emit_run_entries by assumption. cbn [bind]. rewrite E. cbn [bind].
    rewrite u16_bytes_app. split; [reflexivity|]. split.
    + apply Forall_app. now split.
    + rewrite sumZ_app, sumZ_cons. lia.
Qed.

Lemma binarize_nonempty (px : list Z) :
  px <> [] ->
  exists flat,
    Encode.binarize px = Ok flat /\
    length flat = length px /\
    Forall (fun p => 0 <= p <= 255) flat /\
    (Forall (fun p => 0 <= p <= 255) px -> logical flat).
Proof.
  intros Hne.
  destruct (np_max_nonempty px Hne) as (mx & Emx & Hlb & _).
  unfold Encode.binarize. rewrite Emx. cbn [bind].
  destruct (mx >? 1) eqn:E; eexists; (split; [reflexivity|]);
    (split; [apply length_map|]); split.
  - apply Forall_forall. intros p Hp. apply in_map_iff in Hp.
    destruct Hp as (q & <- & _). destruct (q >? 127); lia.
  - intros _. apply Forall_forall. intros p Hp. apply in_map_iff in Hp.
    destruct Hp as (q & <- & _). destruct (q >? 127); auto.
  - apply Forall_forall. intros p Hp. apply in_map_iff in Hp.
    destruct Hp as (q & <- & _).
    pose proof (Z.mod_pos_bound q 256 ltac:(lia)). lia.
  - intros Hu8. rewrite Z.gtb_ltb in E. apply Z.ltb_ge in E.
    apply Forall_forall. intros p Hp. apply in_map_iff in Hp.
    destruct Hp as (q & <- & Hq).
    pose proof (Hlb q Hq) as Hle. rewrite Forall_forall in Hu8.
    pose proof (Hu8 q Hq) as Hge.
    assert (Hq01 : q = 0 \/ q = 1) by lia.
    destruct Hq01 as [->| ->]; auto.
Qed.

(** The buffer built for a mask that has pixels and whose height and width
    fit 16 bits. *)
Lemma rle_payload_in_range (m : ndarray) :
  well_shaped m -> pixels m <> [] ->
  height m <= 65535 -> width m <= 65535 ->
  exists flat entries,
    Encode.binarize (pixels m) = Ok flat /\
    Encode.rle_payload m
    = Ok ([byte_of_Z (hd 0 flat)] ++ le_bytes 2 (height m) ++ le_bytes 2 (width m)
          ++ le_bytes 4 (len (Encode.run_lengths_of flat)) ++ u16_bytes entries) /\
    Forall (fun e => 0 <= e <= 65535) entries /\
    sumZ entries = sumZ (Encode.run_lengths_of flat) /\
    sumZ entries <= height m * width m /\
    0 <= len (Encode.run_lengths_of flat) < 4294967296.
Proof.
  intros (Hh & Hw & Hlen) Hne Hh16 Hw16.
  destruct (binarize_nonempty _ Hne) as (flat & Eb & Hfl & _ & _).
  destruct (run_lengths_bounds flat) as [Hpos Hsum].
  destruct (emit_runs_entries _ Hpos) as (entries & Ee & Hbound & Hsume).
  pose proof (len_le_sumZ _ Hpos) as Hcount.
  assert (Hflen : len flat = height m * width m) by (unfold len in *; lia).
  assert (Hn : 0 <= len (Encode.run_lengths_of flat) < 4294967296).
  { split; [unfold len; lia|]. nia. }
  exists flat, entries. split; [exact Eb|].
  split; [|repeat split; try assumption; lia].
  unfold Encode.rle_payload. rewrite Eb. cbn [bind].
  destruct flat as [|s t]; [destruct (pixels m); [congruence|discriminate]|].
  rewrite !to_bytes_u16 by lia. cbn [bind].
  rewrite to_bytes_u32 by assumption. cbn [bind].
  rewrite Ee. reflexivity.
Qed.

(** X1: for a mask with pixels whose height and width fit 16 bits, the
    encoder writes the first binarized cell, the height, the width and the
    number of run lengths, then u16 entries that never exceed 65535, add up to
    the run lengths and total at most [height * width]. *)
Theorem encode_layout `{Platform} (m : ndarray) :
  well_shaped m -> pixels m <> [] ->
  height m <= 65535 -> width m <= 65535 ->
  exists flat entries,
    Encode.binarize (pixels m) = Ok flat /\
    mask_to_base64 m
    = Ok (b64encode (zlib_compress
            ([byte_of_Z (hd 0 flat)] ++ le_bytes 2 (height m) ++ le_bytes 2 (width m)
             ++ le_bytes 4 (len (Encode.run_lengths_of flat)) ++ u16_bytes entries))) /\
    Forall (fun e => 0 <= e <= 65535) entries /\
    sumZ entries = sumZ (Encode.run_lengths_of flat) /\
    sumZ entries <= height m * width m.
Proof.
  intros Hshape Hne Hh Hw.
  destruct (rle_payload_in_range m Hshape Hne Hh Hw)
    as (flat & entries & Eb & Ep & Hbound & Hsum & Htotal & _).
  exists flat, entries. split; [exact Eb|].
  split; [now apply mask_to_base64_payload|]. now repeat split.
Qed.

Lemma encode_layout_witness :
  exists flat entries,
    Encode.binarize (pixels (mk_ndarray 2 3 [0; 255; 255; 0; 0; 255])) = Ok flat /\
    mask_to_base64 (mk_ndarray 2 3 [0; 255; 255; 0; 0; 255])
    = Ok (b64encode (zlib_compress
            ([byte_of_Z (hd 0 flat)] ++ le_bytes 2 2 ++ le_bytes 2 3
             ++ le_bytes 4 (len (Encode.run_lengths_of flat)) ++ u16_bytes entries))) /\
    Forall (fun e => 0 <= e <= 65535) entries /\
    sumZ entries = sumZ (Encode.run_lengths_of flat) /\
    sumZ entries <= 2 * 3.
Proof.
  apply (encode_layout (mk_ndarray 2 3 [0; 255; 255; 0; 0; 255])).
  - unfold well_shaped. cbn. lia.
  - discriminate.
  - cbn. lia.
  - cbn. lia.
Defined.

Lemma to_bytes_overflow (k : nat) (n : Z) :
  256 ^ Z.of_nat k <= n -> to_bytes k n = Raise OverflowError.
Proof.
  intros Hn. unfold to_bytes.
  replace (256 ^ Z.of_nat k <=? n) with true by (symmetry; now apply Z.leb_le).
  now rewrite orb_true_r.
Qed.

(** X2: a mask with pixels is encoded exactly when its height and its width
    fit the 16-bit header fields; otherwise [to_bytes] raises. *)
Theorem encode_succeeds_iff_dims_fit `{Platform} (m : ndarray) :
  well_shaped m -> pixels m <> [] ->
  (exists s, mask_to_base64 m = Ok s) <-> height m <= 65535 /\ width m <= 65535.
Proof.
  intros Hshape Hne. split.
  - intros [s Es].
    destruct (binarize_nonempty _ Hne) as (flat & Eb & Hfl & _ & _).
    assert (Hflat : flat <> []).
    { destruct flat; [|discriminate]. destruct (pixels m); [congruence|discriminate]. }
    destruct (Z_le_gt_dec (height m) 65535) as [Hh|Hh];
      [destruct (Z_le_gt_dec (width m) 65535) as [Hw|Hw]; [now split|]|];
      exfalso; unfold mask_to_base64, mask_to_rle, Encode.rle_payload in Es;
      rewrite Eb in Es; cbn [bind] in Es;
      destruct flat as [|x t]; try congruence.
    + destruct Hshape as (Hh0 & _).
      rewrite (to_bytes_u16 (height m)) in Es by lia. cbn [bind] in Es.
      rewrite (to_bytes_overflow 2 (width m)) in Es
        by (change (256 ^ Z.of_nat 2) with 65536; lia).
      discriminate.
    + rewrite (to_bytes_overflow 2 (height m)) in Es
        by (change (256 ^ Z.of_nat 2) with 65536; lia).
      discriminate.
  - intros [Hh Hw].
    destruct (rle_payload_in_range m Hshape Hne Hh Hw) as (flat & entries & _ & Ep & _).
    rewrite (mask_to_base64_payload _ _ Ep). eexists. reflexivity.
Qed.

Lemma encode_succeeds_iff_dims_fit_witness :
  (exists s, mask_to_base64 (mk_ndarray 1 2 [0; 255]) = Ok s) <-> 1 <= 65535 /\ 2 <= 65535.
Proof.
  apply (encode_succeeds_iff_dims_fit (mk_ndarray 1 2 [0; 255])).
  - unfold well_shaped. cbn. lia.
  - discriminate.
Defined.

(** X3: the round trip is the identity on the 0/255 masks whose height and
    width fit 16 bits and which either start with a foreground cell and have
    no run longer than 65535, or are background throughout. *)
Theorem roundtrip_identity_domain `{Platform} (m : ndarray) :
  well_shaped m -> pixels m <> [] ->
  height m <= 65535 -> width m <= 65535 ->
  logical (pixels m) ->
  (hd 0 (pixels m) = 1 /\
   Forall (fun g => g <= 65535) (Encode.run_lengths_of (pixels m)))
  \/ Forall (fun p => p = 0) (pixels m) ->
  roundtrip (scale255 m) = Ok (Some (scale255 m)).
Proof.
  intros Hshape Hne Hh Hw Hlog [[Hfirst Hshort]|Hzero].
  - now apply roundtrip_foreground_first.
  - now apply roundtrip_all_background.
Qed.

Lemma roundtrip_identity_domain_witness :
  roundtrip (scale255 (mk_ndarray 2 3 [1; 1; 0; 0; 1; 0]))
  = Ok (Some (scale255 (mk_ndarray 2 3 [1; 1; 0; 0; 1; 0]))).
Proof.
  apply (roundtrip_identity_domain (mk_ndarray 2 3 [1; 1; 0; 0; 1; 0])).
  - unfold well_shaped. cbn. lia.
  - discriminate.
  - cbn. lia.
  - cbn. lia.
  - unfold logical. cbn. repeat (apply Forall_cons; [lia|]). apply Forall_nil.
  - left. split; [reflexivity|].
    vm_compute. repeat (apply Forall_cons; [discriminate|]). apply Forall_nil.
Defined.

(** ** What the decoder accepts and what it returns *)

Lemma read_runs_nonneg (n : nat) :
  forall rest, Forall (fun e => 0 <= e) (Decode.read_runs n rest).
Proof.
  induction n as [|n IH]; intros rest; [constructor|].
  destruct rest as [|b0 [|b1 rest]]; try constructor.
  - apply from_bytes_nonneg.
  - apply IH.
Qed.

Lemma fill_Forall (P : Z -> Prop) (v : Z) (flat : list Z) :
  forall pos rl, P v -> Forall P flat -> Forall P (Decode.fill flat pos rl v).
Proof.
  induction flat as [|x t IH]; intros pos rl Hv Hflat; [constructor|].
  inversion Hflat; subst.
  destruct pos as [|p]; [destruct rl as [|r]|]; cbn [Decode.fill];
    try (constructor; auto).
Qed.

Lemma store_value_binary (pol : store_policy) (cv v : Z) :
  pol = StoreRaises \/ cv = 0 \/ cv = 1 ->
  Decode.store_value pol (cv * 255) = Ok v ->
  binary_cell v /\ (cv = 0 \/ cv = 1).
Proof.
  unfold Decode.store_value, binary_cell. intros Hpol E.
  destruct ((0 <=? cv * 255) && (cv * 255 <=? 255)) eqn:Er.
  - apply andb_prop in Er. destruct Er as [E1 E2].
    apply Z.leb_le in E1, E2. inversion E; subst. lia.
  - destruct Hpol as [->|Hcv]; [discriminate|].
    exfalso. apply andb_false_iff in Er.
    destruct Er as [Er|Er]; apply Z.leb_gt in Er; lia.
Qed.

(** The loop only ever stores 0 or 255, when stores are checked or the start
    value is 0 or 1. *)
Lemma reconstruct_binary (pol : store_policy) (runs : list Z) :
  forall flat cv pos flat',
    pol = StoreRaises \/ cv = 0 \/ cv = 1 ->
    Forall binary_cell flat ->
    Decode.reconstruct pol runs flat cv pos = Ok flat' ->
    Forall binary_cell flat'.
Proof.
  induction runs as [|rl0 t IH]; intros flat cv pos flat' Hpol Hflat E;
    cbn [Decode.reconstruct] in E.
  - inversion E; subst; assumption.
  - destruct ((if pos + rl0 >? len flat then len flat - pos else rl0) >? 0).
    + destruct (Decode.store_value pol (cv * 255)) as [v|e] eqn:Es;
        cbn [bind] in E; [|discriminate].
      destruct (store_value_binary _ _ _ Hpol Es) as [Hv Hcv].
      eapply IH; [| |exact E].
      * right. lia.
      * now apply fill_Forall.
    + eapply IH; [| |exact E]; [|assumption].
      destruct Hpol as [->|Hcv]; [now left|right; lia].
Qed.

Lemma repeat_binary (n : nat) : Forall binary_cell (repeat 0 n).
Proof. apply Forall_forall. intros p Hp. apply repeat_spec in Hp. now left. Qed.

Lemma decode_payload_binary (pol : store_policy) (data : list byte) (m : ndarray) :
  pol = StoreRaises \/ header_start_value data = 0 \/ header_start_value data = 1 ->
  Decode.decode_payload pol data = Ok (Some m) ->
  Forall binary_cell (pixels m).
Proof.
  intros Hpol E.
  do 9 (destruct data as [|? data]; [discriminate|]).
  cbn [Decode.decode_payload] in E.
  match type of E with
  | bind ?r _ = _ => destruct r as [flat|e] eqn:Er; cbn in E; [|discriminate]
  end.
  inversion E; subst m; clear E. cbn [pixels].
  eapply reconstruct_binary; [exact Hpol|apply repeat_binary|exact Er].
Qed.

(** X4: a mask returned by decode holds no other values than 0 and 255,
    provided NumPy checks stores into [uint8] or the stream's start value is
    0 or 1. *)
Theorem decoded_cells_are_binary `{Platform} (rle_bytes data : list byte) (m : ndarray) :
  zlib_decompress rle_bytes = Ok data ->
  uint8_store = StoreRaises \/ header_start_value data = 0 \/ header_start_value data = 1 ->
  rle_to_mask rle_bytes = Some m ->
  Forall binary_cell (pixels m).
Proof.
  intros Ez Hpol E. unfold rle_to_mask in E. rewrite Ez in E. cbn [bind] in E.
  apply (decode_payload_binary uint8_store data); [exact Hpol|].
  destruct (Decode.decode_payload uint8_store data) as [[m'|]|e]; cbn in E; congruence.
Qed.

Lemma decoded_cells_are_binary_witness :
  Forall binary_cell (pixels (mk_ndarray 1 4 [255; 255; 0; 255])).
Proof.
  apply (decoded_cells_are_binary
           (zlib_compress (bytes_of [1; 1; 0; 4; 0; 3; 0; 0; 0; 2; 0; 1; 0; 1; 0]))
           (bytes_of [1; 1; 0; 4; 0; 3; 0; 0; 0; 2; 0; 1; 0; 1; 0])).
  - reflexivity.
  - left. reflexivity.
  - vm_compute. reflexivity.
Defined.

(** A buffer of nine bytes or more with start value 0 or 1 always decodes. *)
Lemma decode_payload_accepts (pol : store_policy) (data : list byte) :
  9 <= len data ->
  header_start_value data = 0 \/ header_start_value data = 1 ->
  exists m, Decode.decode_payload pol data = Ok (Some m).
Proof.
  intros Hlen Hstart.
  do 9 (destruct data as [|? data]; [cbn in Hlen; lia|]).
  unfold header_start_value in Hstart. cbn [hd] in Hstart.
  cbn [Decode.decode_payload].
  destruct (reconstruct_tail pol
              (Decode.read_runs (Z.to_nat (from_bytes [b4; b5; b6; b7])) data)
              (repeat 0 (Z.to_nat (from_bytes [b0; b1] * from_bytes [b2; b3])))
              (Z_of_byte b) 0 Hstart ltac:(lia) (read_runs_nonneg _ _))
    as (flat & Er & _).
  rewrite Er. eexists. reflexivity.
Qed.

(** X5: decode fails on a string that is not base64, on bytes that do not
    decompress, and on a decompressed buffer shorter than the 9-byte header;
    in each case it returns [None] and raises nothing. *)
Theorem decode_rejects_bad_input `{Platform} (s : String.string) :
  (exists e, b64decode s = Raise e) \/
  (exists rle_bytes e, b64decode s = Ok rle_bytes /\ zlib_decompress rle_bytes = Raise e) \/
  (exists rle_bytes data,
      b64decode s = Ok rle_bytes /\ zlib_decompress rle_bytes = Ok data /\ len data < 9) ->
  base64_to_mask s = None.
Proof.
  intros [[e E]|[(b & e & Eb & Ez)|(b & data & Eb & Ez & Hlen)]].
  - now apply (base64_to_mask_invalid_base64 s e).
  - rewrite (base64_to_mask_of_bytes s b Eb). now apply (rle_to_mask_corrupt_stream b e).
  - rewrite (base64_to_mask_of_bytes s b Eb). now apply (rle_to_mask_short_payload b data).
Qed.

Lemma decode_rejects_bad_input_witness :
  base64_to_mask (b64encode (bytes_of [0; 1; 2])) = None.
Proof.
  apply (decode_rejects_bad_input (b64encode (bytes_of [0; 1; 2]))).
  right. left. exists (bytes_of [0; 1; 2]), ZlibError. split; reflexivity.
Defined.

(** X6: conversely, once the string is base64 of a stream that decompresses
    to nine bytes or more with start value 0 or 1, decode returns a mask:
    no run count and no run length makes it fail. *)
Theorem decode_accepts_any_runs `{Platform} (s : String.string) (rle_bytes data : list byte) :
  b64decode s = Ok rle_bytes ->
  zlib_decompress rle_bytes = Ok data ->
  9 <= len data ->
  header_start_value data = 0 \/ header_start_value data = 1 ->
  exists m, base64_to_mask s = Some m.
Proof.
  intros Eb Ez Hlen Hstart.
  destruct (decode_payload_accepts uint8_store data Hlen Hstart) as [m Em].
  exists m. rewrite (base64_to_mask_of_bytes s rle_bytes Eb).
  unfold rle_to_mask. rewrite Ez. cbn [bind]. now rewrite Em.
Qed.

Lemma decode_accepts_any_runs_witness :
  exists m,
    base64_to_mask
      (b64encode (zlib_compress (bytes_of [1; 1; 0; 2; 0; 255; 255; 255; 255; 255; 255; 7])))
    = Some m.
Proof.
  apply (decode_accepts_any_runs
           (b64encode (zlib_compress (bytes_of [1; 1; 0; 2; 0; 255; 255; 255; 255; 255; 255; 7])))
           (zlib_compress (bytes_of [1; 1; 0; 2; 0; 255; 255; 255; 255; 255; 255; 7]))
           (bytes_of [1; 1; 0; 2; 0; 255; 255; 255; 255; 255; 255; 7])).
  - reflexivity.
  - reflexivity.
  - vm_compute. discriminate.
  - right. reflexivity.
Defined.

(** Runs that fit the buffer are written one after the other; a zero-length
    run writes nothing and only flips the polarity. *)
Lemma reconstruct_expand_nonneg (pol : store_policy) (runs : list Z) :
  forall pre mid post cv,
    cv = 0 \/ cv = 1 -> Forall (fun g => 0 <= g) runs -> len mid = sumZ runs ->
    Decode.reconstruct pol runs (pre ++ mid ++ post) cv (len pre)
    = Ok (pre ++ expand 255 cv runs ++ post).
Proof.
  induction runs as [|rl0 t IH]; intros pre mid post cv Hcv Hruns Hmid.
  - destruct mid; [reflexivity|]. unfold len in Hmid. cbn in Hmid. lia.
  - inversion Hruns as [|? ? Hrl0 Ht]; subst.
    assert (Hcv' : 1 - cv = 0 \/ 1 - cv = 1) by lia.
    rewrite sumZ_cons in Hmid. pose proof (sumZ_nonneg t Ht) as Hsum.
    cbn [Decode.reconstruct expand].
    assert (Hfit : (len pre + rl0 >? len (pre ++ mid ++ post)) = false).
    { rewrite Z.gtb_ltb. apply Z.ltb_ge. unfold len in *.
      rewrite !length_app. lia. }
    rewrite Hfit.
    destruct (rl0 >? 0) eqn:Epos.
    + set (mid1 := firstn (Z.to_nat rl0) mid).
      set (mid2 := skipn (Z.to_nat rl0) mid).
      assert (Emid : mid = mid1 ++ mid2) by (symmetry; apply firstn_skipn).
      assert (Hlen1 : length mid1 = Z.to_nat rl0).
      { subst mid1. rewrite length_firstn. unfold len in Hmid. lia. }
      assert (Hlen2 : len mid2 = sumZ t).
      { unfold len in *. rewrite Emid, length_app in Hmid. lia. }
      rewrite store_value_polarity by assumption. cbn [bind].
      replace (Z.to_nat (len pre)) with (length pre) by (unfold len; lia).
      rewrite Emid, <- Hlen1, <- app_assoc, fill_exact.
      rewrite (app_assoc pre (repeat _ _)).
      replace (len pre + rl0)
        with (len (pre ++ repeat (cv * 255) (length mid1)))
        by (unfold len; rewrite length_app, repeat_length; lia).
      rewrite IH by assumption.
      rewrite <- !app_assoc. reflexivity.
    + rewrite Z.gtb_ltb in Epos. apply Z.ltb_ge in Epos.
      assert (rl0 = 0) by lia. subst rl0.
      rewrite IH by (assumption || lia). reflexivity.
Qed.

Lemma read_runs_entries (runs : list Z) :
  Forall (fun g => 0 <= g <= 65535) runs ->
  Decode.read_runs (length runs) (u16_bytes runs) = runs.
Proof.
  induction 1 as [|g t Hg Ht IH]; [reflexivity|].
  unfold u16_bytes. cbn [flat_map length]. fold (u16_bytes t).
  pose proof (from_le_bytes 2 g ltac:(change (256 ^ Z.of_nat 2) with 65536; lia)) as E.
  cbn [le_bytes] in *. cbn [app Decode.read_runs]. now rewrite E, IH.
Qed.

(** X7: a stream with start value 0 or 1 whose header counts its entries and
    whose entries total at most [height * width] decodes to the runs painted one
    after the other with alternating polarity, starting with the start value,
    then background; a zero-length entry paints nothing and flips the
    polarity. *)
Theorem decode_paints_runs `{Platform}
    (rle_bytes : list byte) (s h w : Z) (runs : list Z) :
  zlib_decompress rle_bytes
  = Ok ([byte_of_Z s] ++ le_bytes 2 h ++ le_bytes 2 w
        ++ le_bytes 4 (len runs) ++ u16_bytes runs) ->
  s = 0 \/ s = 1 ->
  0 <= h <= 65535 -> 0 <= w <= 65535 ->
  len runs < 4294967296 ->
  Forall (fun g => 0 <= g <= 65535) runs ->
  sumZ runs <= h * w ->
  rle_to_mask rle_bytes
  = Some (mk_ndarray h w
            (expand 255 s runs ++ repeat 0 (Z.to_nat (h * w - sumZ runs)))).
Proof.
  intros Ez Hs Hh Hw Hn Hruns Hsum.
  assert (Hnonneg : Forall (fun g => 0 <= g) runs).
  { eapply Forall_impl; [|exact Hruns]. cbn. lia. }
  pose proof (sumZ_nonneg runs Hnonneg) as Hsum0.
  unfold rle_to_mask. rewrite Ez. cbn [bind].
  rewrite decode_payload_header by (unfold len in *; lia).
  replace (Z.to_nat (len runs)) with (length runs) by (unfold len; lia).
  rewrite read_runs_entries by assumption.
  replace (repeat 0 (Z.to_nat (h * w)))
    with (repeat 0 (Z.to_nat (sumZ runs)) ++ repeat 0 (Z.to_nat (h * w - sumZ runs)))
    by (rewrite <- repeat_app; f_equal; lia).
  pose proof (reconstruct_expand_nonneg uint8_store runs []
                (repeat 0 (Z.to_nat (sumZ runs)))
                (repeat 0 (Z.to_nat (h * w - sumZ runs))) s Hs Hnonneg) as Hrec.
  cbn [app] in Hrec. change (len (@nil Z)) with 0 in Hrec.
  rewrite Hrec; [reflexivity|].
  unfold len. rewrite repeat_length. lia.
Qed.

Lemma decode_paints_runs_witness :
  rle_to_mask
    (zlib_compress ([byte_of_Z 1] ++ le_bytes 2 2 ++ le_bytes 2 4
                    ++ le_bytes 4 (len [3; 0; 2; 1]) ++ u16_bytes [3; 0; 2; 1]))
  = Some (mk_ndarray 2 4
            (expand 255 1 [3; 0; 2; 1]
             ++ repeat 0 (Z.to_nat (2 * 4 - sumZ [3; 0; 2; 1])))).
Proof.
  apply (decode_paints_runs
           (zlib_compress ([byte_of_Z 1] ++ le_bytes 2 2 ++ le_bytes 2 4
                           ++ le_bytes 4 (len [3; 0; 2; 1]) ++ u16_bytes [3; 0; 2; 1]))
           1 2 4 [3; 0; 2; 1]).
  - reflexivity.
  - right. reflexivity.
  - lia.
  - lia.
  - cbn. lia.
  - repeat (apply Forall_cons; [lia|]). apply Forall_nil.
  - cbn. lia.
Defined.

(** X8: for a mask with pixels, [uint8] cell values and a height and width
    that fit 16 bits, decode of the encoded string always returns a mask, of
    the same height and width, with cells 0 or 255 (which cells are foreground
    is another matter, see [roundtrip_identity_domain]). *)
Theorem roundtrip_preserves_shape `{Platform} (m : ndarray) :
  well_shaped m -> pixels m <> [] ->
  height m <= 65535 -> width m <= 65535 ->
  Forall (fun p => 0 <= p <= 255) (pixels m) ->
  exists m',
    roundtrip m = Ok (Some m') /\
    height m' = height m /\ width m' = width m /\
    len (pixels m') = len (pixels m) /\
    Forall binary_cell (pixels m').
Proof.
  intros Hshape Hne Hh Hw Hu8.
  destruct (rle_payload_in_range m Hshape Hne Hh Hw)
    as (flat & entries & Eb & Ep & _ & _ & _ & Hn).
  destruct (binarize_nonempty _ Hne) as (flat' & Eb' & Hfl & _ & Hlog).
  rewrite Eb in Eb'. inversion Eb'; subst flat'; clear Eb'.
  specialize (Hlog Hu8).
  assert (Hstart : hd 0 flat = 0 \/ hd 0 flat = 1).
  { destruct flat as [|x t]; [now left|]. now inversion Hlog. }
  destruct Hshape as (Hh0 & Hw0 & Hlen).
  rewrite (roundtrip_payload _ _ Ep).
  rewrite decode_payload_header by lia.
  destruct (reconstruct_tail uint8_store
              (Decode.read_runs (Z.to_nat (len (Encode.run_lengths_of flat)))
                                (u16_bytes entries))
              (repeat 0 (Z.to_nat (height m * width m)))
              (hd 0 flat) 0 Hstart ltac:(lia) (read_runs_nonneg _ _))
    as (out & Er & _).
  rewrite Er. cbn [bind try_except].
  exists (mk_ndarray (height m) (width m) out). cbn [height width pixels].
  split; [reflexivity|]. split; [reflexivity|]. split; [reflexivity|].
  split.
  - apply reconstruct_length in Er. rewrite repeat_length in Er.
    unfold len in *. lia.
  - eapply reconstruct_binary; [right; exact Hstart|apply repeat_binary|exact Er].
Qed.

Lemma roundtrip_preserves_shape_witness :
  exists m',
    roundtrip (mk_ndarray 1 2 [0; 255]) = Ok (Some m') /\
    height m' = 1 /\ width m' = 2 /\
    len (pixels m') = len [0; 255] /\
    Forall binary_cell (pixels m').
Proof.
  apply (roundtrip_preserves_shape (mk_ndarray 1 2 [0; 255])).
  - unfold well_shaped. cbn. lia.
  - discriminate.
  - cbn. lia.
  - cbn. lia.
  - cbn. repeat (apply Forall_cons; [lia|]). apply Forall_nil.
Defined.

(** * Further properties of the geometry *)

(** ** The box lies in the unit square and holds the foreground *)

Section Quotients.

Variable W : Z.
Hypothesis HW : 0 < W.







End Quotients.









(** ** Combining: results and shape mismatches *)


Lemma accumulate_mismatch (h w : Z) (pairs : list (ndarray * Q)) :
  Exists (fun mw => broadcastable h w (fst mw) = false) pairs ->
  forall combined, Geometry.accumulate h w combined pairs = Raise BroadcastError.
Proof.
  induction 1 as [[m q] t Hbad|[m q] t Hex IH]; intros combined;
    cbn [Geometry.accumulate]; unfold Geometry.add_weighted.
  - cbn [fst] in Hbad. unfold Geometry.broadcast_to.
    unfold broadcastable in Hbad. now rewrite Hbad.
  - destruct (Geometry.broadcast_to h w m) as [px|e] eqn:Eb; cbn [bind].
    + apply IH.
    + apply broadcast_to_raises in Eb. now subst.
Qed.

(** X12: when a mask that is paired with a weight has a height or a width
    that is neither that of the first mask nor 1, [combine_masks] raises
    NumPy's broadcasting error and returns no mask. *)
Theorem combine_rejects_shape_mismatch
    (m0 : ndarray) (rest : list ndarray) (weights : option (list Q)) :
  Exists (fun mw => broadcastable (height m0) (width m0) (fst mw) = false)
         (List.combine (m0 :: rest) (weights_or_default (m0 :: rest) weights)) ->
  Geometry.combine_masks (m0 :: rest) weights = Raise BroadcastError.
Proof.
  intros Hex. unfold Geometry.combine_masks.
  fold (weights_or_default (m0 :: rest) weights).
  now rewrite accumulate_mismatch.
Qed.

Lemma combine_rejects_shape_mismatch_witness :
  Geometry.combine_masks [mk_ndarray 2 2 [0; 255; 0; 0]; mk_ndarray 3 2 [0; 0; 0; 0; 0; 0]] None
  = Raise BroadcastError.
Proof.
  apply (combine_rejects_shape_mismatch
           (mk_ndarray 2 2 [0; 255; 0; 0]) [mk_ndarray 3 2 [0; 0; 0; 0; 0; 0]] None).
  apply Exists_cons_tl. apply Exists_cons_hd. reflexivity.
Defined.

(** X13: whenever [combine_masks] returns a mask, it has the height and the
    width of the first mask given and its cells are 0 or 255. *)
Theorem combine_result_is_binary (masks : list ndarray) (weights : option (list Q))
    (r : ndarray) :
  Geometry.combine_masks masks weights = Ok r ->
  exists m0 rest,
    masks = m0 :: rest /\
    height r = height m0 /\ width r = width m0 /\
    Forall binary_cell (pixels r).
Proof.
  intros E. destruct masks as [|m0 rest]; [discriminate|].
  exists m0, rest. split; [reflexivity|].
  unfold Geometry.combine_masks in E.
  match type of E with
  | bind ?a _ = _ => destruct a as [c|e]; cbn [bind] in E; [|discriminate]
  end.
  inversion E; subst r; clear E. cbn [height width pixels].
  repeat split. apply Forall_forall. intros p Hp.
  apply in_map_iff in Hp. destruct Hp as (q & <- & _).
  unfold binary_cell. destruct (Geometry.gt_bool q _); auto.
Qed.

Lemma combine_result_is_binary_witness :
  exists m0 rest,
    [one_pixel 255; one_pixel 0; one_pixel 0] = m0 :: rest /\
    height (one_pixel 255) = height m0 /\ width (one_pixel 255) = width m0 /\
    Forall binary_cell (pixels (one_pixel 255)).
Proof.
  apply (combine_result_is_binary [one_pixel 255; one_pixel 0; one_pixel 0] None
                                  (one_pixel 255)).
  vm_compute. reflexivity.
Defined.

